(** * EMC Export Opportunity Finder: a shallow embedding of [emc_export_app.py]

    The script is a linear pipeline of five stages (scrape, market query,
    buyer list, distributor lookup, report) run once per page render.  Each
    Python function is embedded as a Rocq function in an error monad; the
    libraries the script calls into the outside world with ([requests],
    [BeautifulSoup], [pandas.read_csv], [DataFrame.to_markdown], [str.encode],
    [repr]) are the fields of one [World] record, and the part of [pandas] the
    script computes with (frame construction, [concat], [iterrows], [groupby],
    column selection) is embedded as functions on a small table type, whose
    cells hold the Python objects a decoded JSON body is made of. *)

From Stdlib Require Import ZArith NArith Ascii String List Lia DecimalString.
From stdpp Require Import base option list gmap strings sorting.

Local Open Scope Z_scope.

(** ** Python values and exceptions *)

Module Py.

(** Text is a [string] holding the UTF-8 bytes of a Python [str]. *)
Definition LF : string := String "010"%char EmptyString.
Definition DQ : string := String "034"%char EmptyString.
Definition SQ : string := String "039"%char EmptyString.

(** An exception object: its class and [str(e)]. *)
Inductive exn : Type := Exception (class msg : string).

Definition str_exn (e : exn) : string :=
  match e with Exception _ msg => msg end.

(** [KeyError(k)] prints as [repr(k)]; every key the script looks up is a
    plain identifier, whose [repr] is the key between single quotes. *)
Definition KeyError (k : string) : exn :=
  Exception "KeyError" (SQ +:+ k +:+ SQ).
Definition ValueError (msg : string) : exn := Exception "ValueError" msg.
Definition HTTPError (msg : string) : exn := Exception "HTTPError" msg.
Definition TypeError (msg : string) : exn := Exception "TypeError" msg.
Definition AttributeError (msg : string) : exn := Exception "AttributeError" msg.

(** The outcome of evaluating an expression: a value or a raised exception. *)
Inductive result (A : Type) : Type :=
| Return (a : A)
| Raise (e : exn).
Arguments Return {A} a.
Arguments Raise {A} e.

Definition bind {A B} (f : A → result B) (m : result A) : result B :=
  match m with
  | Return a => f a
  | Raise e => Raise e
  end.

(** [try: body except Exception as e: handler e] *)
Definition try_except {A} (body : result A) (handler : exn → result A)
  : result A :=
  match body with
  | Return a => Return a
  | Raise e => handler e
  end.

(** [len(s)]: the number of code points, i.e. of bytes that are not UTF-8
    continuation bytes (10xxxxxx). *)
Definition is_continuation (a : ascii) : bool :=
  let n := N_of_ascii a in ((128 <=? n) && (n <? 192))%N.

Fixpoint len (s : string) : nat :=
  match s with
  | EmptyString => 0%nat
  | String a s' => ((if is_continuation a then 0 else 1) + len s')%nat
  end.

(** Iterating over a [str] yields its characters, one code point each. *)
Definition starts_with_continuation (s : string) : bool :=
  match s with
  | EmptyString => false
  | String a _ => is_continuation a
  end.

Fixpoint chars (s : string) : list string :=
  match s with
  | EmptyString => []
  | String a s' =>
      if starts_with_continuation s' then
        match chars s' with
        | c :: cs => String a c :: cs
        | [] => [String a EmptyString]
        end
      else String a EmptyString :: chars s'
  end.

(** [sep.join(l)] *)
Fixpoint join (sep : string) (l : list string) : string :=
  match l with
  | [] => EmptyString
  | [x] => x
  | x :: l' => x +:+ sep +:+ join sep l'
  end.

(** [x or d] on strings: the empty string is falsy. *)
Definition or_else (x d : string) : string :=
  match x with
  | EmptyString => d
  | _ => x
  end.

(** [str(n)] for an integer. *)
Definition str_int (n : Z) : string := NilZero.string_of_int (Z.to_int n).

(** The text of a byte sequence. *)
Definition bytes (l : list N) : string :=
  fold_right (λ n s, String (ascii_of_N n) s) EmptyString l.

(** The characters [str.strip()] removes: those [str.isspace] holds of,
    U+0009-000D, U+001C-0020, U+0085, U+00A0, U+1680, U+2000-200A, U+2028,
    U+2029, U+202F, U+205F and U+3000, each by its UTF-8 bytes. *)
Definition whitespace : list string :=
  map bytes
    [ [9]; [10]; [11]; [12]; [13]; [28]; [29]; [30]; [31]; [32];
      [194; 133]; [194; 160]; [225; 154; 128];
      [226; 128; 128]; [226; 128; 129]; [226; 128; 130]; [226; 128; 131];
      [226; 128; 132]; [226; 128; 133]; [226; 128; 134]; [226; 128; 135];
      [226; 128; 136]; [226; 128; 137]; [226; 128; 138];
      [226; 128; 168]; [226; 128; 169]; [226; 128; 175];
      [226; 129; 159]; [227; 128; 128] ]%N.

Definition is_space (c : string) : bool := bool_decide (c ∈ whitespace).

Fixpoint lstrip_chars (cs : list string) : list string :=
  match cs with
  | [] => []
  | c :: cs' => if is_space c then lstrip_chars cs' else cs
  end.

(** [s.strip()]: the text without its leading and trailing whitespace. *)
Definition strip (s : string) : string :=
  join "" (rev (lstrip_chars (rev (lstrip_chars (chars s))))).

(** The values a scraped summary holds under its keys: a [str] or a list of
    [str]. *)
Inductive value : Type :=
| VStr (s : string)
| VList (l : list string).

(** A decoded JSON value, as [json.loads] makes it: [None], a [bool], an
    [int], a [float] (by its literal), a [str], a [list], or a [dict] (its
    items, each key once). *)
Local Set Warnings "-register-all".
Inductive jvalue : Type :=
| JNull
| JBool (b : bool)
| JInt (n : Z)
| JFloat (literal : string)
| JStr (s : string)
| JArr (items : list jvalue)
| JObj (members : list (string * jvalue)).

Fixpoint jvalue_eq_dec (a b : jvalue) : {a = b} + {a ≠ b}.
Proof.
  decide equality.
  - apply bool_dec.
  - apply Z.eq_dec.
  - apply string_dec.
  - apply string_dec.
  - apply (List.list_eq_dec jvalue_eq_dec).
  - apply List.list_eq_dec. decide equality. apply string_dec.
Defined.

(** [type(v).__name__] *)
Definition type_name (v : jvalue) : string :=
  match v with
  | JNull => "NoneType"
  | JBool _ => "bool"
  | JInt _ => "int"
  | JFloat _ => "float"
  | JStr _ => "str"
  | JArr _ => "list"
  | JObj _ => "dict"
  end.

(** A [list] and a [dict] have no hash; using one as a dictionary key, or as a
    group key, raises. *)
Definition hashable (v : jvalue) : bool :=
  match v with
  | JArr _ | JObj _ => false
  | _ => true
  end.

Definition unhashable (v : jvalue) : exn :=
  TypeError ("unhashable type: " +:+ SQ +:+ type_name v +:+ SQ).

(** The first value of a key among the items of a [dict]. *)
Fixpoint assoc (k : string) (members : list (string * jvalue)) : option jvalue :=
  match members with
  | [] => None
  | (k', v) :: members' => if bool_decide (k' = k) then Some v else assoc k members'
  end.

(** [v.get(k, d)]: only a [dict] has the method. *)
Definition dict_get (v : jvalue) (k : string) (d : jvalue) : result jvalue :=
  match v with
  | JObj members => Return (default d (assoc k members))
  | _ => Raise (AttributeError (SQ +:+ type_name v +:+ SQ
                                +:+ " object has no attribute " +:+ SQ +:+ "get" +:+ SQ))
  end.

End Py.
Export Py.

Global Instance result_ret : MRet result := @Return.
Global Instance result_bind : MBind result := @bind.
Global Instance jvalue_eqdec : EqDecision jvalue := jvalue_eq_dec.

(** ** Tables *)

(** A cell of a table: the Python object it holds, or the missing value
    [nan] a frame fills in.  A cell holding a [str] is written [Text s]. *)
Inductive cell : Type :=
| Val (v : jvalue)
| NaN.

Abbreviation Text s := (Val (JStr s)).

Global Instance cell_eq_dec : EqDecision cell.
Proof. solve_decision. Defined.

Record DataFrame : Type := mkDataFrame {
  columns : list string;
  rows : list (list cell)
}.

(** A row as [iterrows] yields it: the frame's column labels with the row's
    cells. *)
Record Series : Type := mkSeries {
  index : list string;
  values : list cell
}.

(** ** The outside world *)

(** What the script observes of a [requests.Response]. *)
Record Response : Type := mkResponse {
  status_code : Z;
  reason : string;
  url : string;
  text : string;
  (** [response.json()]: the decoded body; a body that is no JSON raises. *)
  json : result jvalue
}.

(** [Response.raise_for_status()]: an [HTTPError] for a client error (4xx) or
    a server error (5xx) status, nothing for any other status. *)
Definition raise_for_status (r : Response) : result unit :=
  if bool_decide (400 ≤ status_code r < 500) then
    Raise (HTTPError (str_int (status_code r) +:+ " Client Error: " +:+ reason r
                      +:+ " for url: " +:+ url r))
  else if bool_decide (500 ≤ status_code r < 600) then
    Raise (HTTPError (str_int (status_code r) +:+ " Server Error: " +:+ reason r
                      +:+ " for url: " +:+ url r))
  else Return tt.

(** What the script observes of a [bs4] element: the text fragments inside
    it, in document order (those [get_text] joins), and its attributes. *)
Record Tag : Type := mkTag {
  tag_strings : list string;
  attrs : gmap string string         (* [.attrs] *)
}.

(** [.text]: the fragments, joined as they are. *)
Definition tag_text (t : Tag) : string := join "" (tag_strings t).

(** [.get_text(strip=True)]: every fragment is stripped, the fragments left
    empty are dropped, and the others are joined without a separator. *)
Definition get_text_strip (t : Tag) : string :=
  join "" (filter (λ s, s ≠ "") (map strip (tag_strings t))).

(** What the script asks of a parsed document. *)
Record Soup : Type := mkSoup {
  soup_title : option Tag;           (* [soup.title] *)
  find_meta_description : option Tag;
      (* [soup.find("meta", attrs={"name": "description"})] *)
  find_all_h1_h2_h3 : list Tag       (* [soup.find_all(['h1', 'h2', 'h3'])] *)
}.

Class World : Type := mkWorld {
  (** [requests.get(url, headers=..., timeout=10)] *)
  requests_get : string → list (string * string) → result Response;
  (** [BeautifulSoup(markup, 'html.parser')] *)
  BeautifulSoup : string → result Soup;
  (** [pd.read_csv(uploaded_file)] on the uploaded file's content *)
  read_csv : string → result DataFrame;
  (** [df.to_markdown(index=False)] *)
  to_markdown : DataFrame → result string;
  (** the [UnicodeEncodeError] of [s.encode()], which a text holding a lone
      surrogate raises *)
  encode_error : string → option exn;
  (** [repr(s)] of a [str] *)
  repr_str : string → string;
  (** [str(v)] of an object that is no [str] *)
  str_value : jvalue → string;
  (** the exception of [d[:5]] on a [dict] (a [TypeError] or a [KeyError],
      by the version of the interpreter) *)
  dict_slice_error : exn;
  (** [df.groupby(by)] as iterated, on a column that holds a number or a
      [bool] among its keys *)
  groupby_numbers : DataFrame → string → result (list (cell * DataFrame))
}.

(** ** The part of pandas the script computes with *)

Module pd.

(** Distinct elements in order of first appearance. *)
Fixpoint unique_from (seen : list string) (l : list string) : list string :=
  match l with
  | [] => []
  | x :: l' =>
      if bool_decide (x ∈ seen) then unique_from seen l'
      else x :: unique_from (x :: seen) l'
  end.
Definition unique (l : list string) : list string := unique_from [] l.

(** The value a record (a Python dict literal, in key order) holds under a
    label; a record without the label leaves the cell missing. *)
Fixpoint record_get (rec : list (string * cell)) (c : string) : cell :=
  match rec with
  | [] => NaN
  | (k, v) :: rec' => if bool_decide (k = c) then v else record_get rec' c
  end.

(** [pd.DataFrame()] *)
Definition empty : DataFrame := mkDataFrame [] [].

(** [pd.DataFrame(records)] for a list of dicts: the columns are the keys in
    order of first appearance, one row per dict. *)
Definition from_records (recs : list (list (string * cell))) : DataFrame :=
  let cols := unique (flat_map (map fst) recs) in
  mkDataFrame cols (map (λ rec, map (record_get rec) cols) recs).

(** [pd.DataFrame({c1: names, c2: scalar})]: the scalar is broadcast along
    the list. *)
Definition from_list_and_scalar (c1 : string) (l : list cell)
    (c2 : string) (x : cell) : DataFrame :=
  mkDataFrame [c1; c2] (map (λ v, [v; x]) l).

(** The cell of a row under a label, by the label's first position. *)
Fixpoint cell_at (cols : list string) (r : list cell) (c : string) : cell :=
  match cols, r with
  | k :: cols', v :: r' => if bool_decide (k = c) then v else cell_at cols' r' c
  | _, _ => NaN
  end.

(** [row[c]] on a row of [iterrows]: [KeyError] for an unknown label. *)
Definition Series_getitem (row : Series) (c : string) : result cell :=
  if bool_decide (c ∈ index row) then Return (cell_at (index row) (values row) c)
  else Raise (KeyError c).

(** [df.iterrows()], without the row labels the script discards. *)
Definition iterrows (df : DataFrame) : list Series :=
  map (mkSeries (columns df)) (rows df).

(** [df[c]]: the cells of a column, top to bottom. *)
Definition getitem (df : DataFrame) (c : string) : result (list cell) :=
  if bool_decide (c ∈ columns df)
  then Return (map (λ r, cell_at (columns df) r c) (rows df))
  else Raise (KeyError c).

(** [pd.concat(dfs, ignore_index=True)]: the union of the columns in order of
    first appearance, the rows of each frame in turn, cells of absent columns
    missing; an empty list is refused. *)
Definition concat (dfs : list DataFrame) : result DataFrame :=
  match dfs with
  | [] => Raise (ValueError "No objects to concatenate")
  | _ =>
      let cols := unique (flat_map columns dfs) in
      Return (mkDataFrame cols
        (flat_map (λ df, map (λ r, map (cell_at (columns df) r) cols) (rows df)) dfs))
  end.

(** The text keys of a column; [None] and [nan] are no keys
    ([dropna=True]). *)
Definition text_keys (cs : list cell) : list string :=
  omap (λ c, match c with Text s => Some s | _ => None end) cs.

(** A key that is text, or missing. *)
Definition plain_key (c : cell) : bool :=
  match c with
  | Text _ | Val JNull | NaN => true
  | _ => false
  end.

(** The first object of a column that has no hash. *)
Definition first_unhashable (cs : list cell) : option jvalue :=
  head (omap (λ c, match c with
                   | Val v => if hashable v then None else Some v
                   | NaN => None
                   end) cs).

(** [df.groupby(by)], as iterated.  A column holding a [list] or a [dict]
    cannot be grouped.  Over text keys there is one [(key, group)] per
    distinct key of the column, keys in ascending order ([sort=True], the
    default), each group holding the frame's rows with that key in their
    original order. *)
Definition groupby {W : World} (df : DataFrame) (by_ : string)
  : result (list (cell * DataFrame)) :=
  col ← getitem df by_;
  match first_unhashable col with
  | Some v => Raise (unhashable v)
  | None =>
      if forallb plain_key col then
        mret (map
          (λ k, (Text k, mkDataFrame (columns df)
                           (filter (λ r, cell_at (columns df) r by_ = Text k) (rows df))))
          (merge_sort String.le (unique (text_keys col))))
      else groupby_numbers df by_
  end.

End pd.

(** A cell inside an f-string. *)
Definition format_cell {W : World} (c : cell) : string :=
  match c with
  | Text s => s
  | Val v => str_value v
  | NaN => "nan"
  end.

(** ** Stage 1: scrape product info *)

Definition scrape_site {W : World} (url : string) : result (gmap string value) :=
  try_except
    (r ← requests_get url [];
     _ ← raise_for_status r;
     soup ← BeautifulSoup (text r);
     let title :=
       match soup_title soup with
       | Some t => tag_text t
       | None => "No title found"
       end in
     let meta := find_meta_description soup in
     let products :=
       map get_text_strip
         (filter (λ item, (5 < len (get_text_strip item))%nat)
                 (find_all_h1_h2_h3 soup)) in
     mret ({[ "Page Title" := VStr title;
              "Meta Description" :=
                VStr (match meta with
                      | Some m =>
                          match attrs m !! "content" with
                          | Some content => content
                          | None => "No description found"
                          end
                      | None => "No description found"
                      end);
              "Product Headings" := VList (take 10 products) ]}
           : gmap string value))
    (λ e, mret {[ "error" := VStr ("Unable to scrape site: " +:+ str_exn e) ]}).

(** ** Stage 2: export market data *)

(** [v[:5]], as the loop iterates over it: the first five items of a [list],
    the first five characters of a [str]; a [dict] takes no slice, and the
    other objects no subscript. *)
Definition first_five {W : World} (v : jvalue) : result (list jvalue) :=
  match v with
  | JArr items => Return (take 5 items)
  | JStr s => Return (map JStr (take 5 (chars s)))
  | JObj _ => Raise dict_slice_error
  | _ => Raise (TypeError (SQ +:+ type_name v +:+ SQ +:+ " object is not subscriptable"))
  end.

(** [{"Country": item.get("ptTitle", "N/A"), "Demand Score": item.get("rgDesc", "N/A")}] *)
Definition market_record (item : jvalue) : result (list (string * cell)) :=
  country ← dict_get item "ptTitle" (JStr "N/A");
  score ← dict_get item "rgDesc" (JStr "N/A");
  mret [("Country", Val country); ("Demand Score", Val score)].

Definition suggest_markets {W : World} (product_term : string) : result DataFrame :=
  try_except
    (let url := "https://comtradeapi.un.org/public/v1/preview/C/A/2010/2022/TOTAL/"
                +:+ product_term +:+ "?fmt=json" in
     let headers := [("Ocp-Apim-Subscription-Key", "YOUR_COMTRADE_API_KEY")] in
     response ← requests_get url headers;
     _ ← raise_for_status response;
     data ← json response;
     entries ← dict_get data "data" (JArr []);
     items ← first_five entries;
     parsed ← mapM market_record items;
     mret (pd.from_records parsed))
    (λ e, mret (pd.from_records
                  [[("Country", Text "Error"); ("Demand Score", Text (str_exn e))]])).

(** ** Stage 3: buyer list *)

Definition fetch_buyer_list (product_term : string) : result DataFrame :=
  try_except
    (let buyers :=
       [[("Company", Text "ExportYeti Buyers Co."); ("Country", Text "USA");
         ("Contact", Text "contact@buyexportyeti.com")];
        [("Company", Text "Global Import Ventures"); ("Country", Text "Mexico");
         ("Contact", Text "sales@globalimport.mx")];
        [("Company", Text "AsiaMed Devices"); ("Country", Text "Philippines");
         ("Contact", Text "info@asiamed.ph")]] in
     mret (pd.from_records buyers))
    (λ e, mret (pd.from_records
                  [[("Company", Text "Error"); ("Country", Text "");
                    ("Contact", Text (str_exn e))]])).

(** ** Stage 4: trusted distributors *)

Definition trusted : gmap string (list string) :=
  {[ "USA" := ["MedEquip USA"; "Trusted Medical Supplies"];
     "Mexico" := ["Distribuciones SaludMX"; "Grupo Médico MX"];
     "Philippines" := ["PhilMed Distributors"; "Manila Health Corp"] ]}.

(** A dictionary hashes the key it is asked for: a [list] or a [dict]
    raises. *)
Definition hash_key (country : cell) : result unit :=
  match country with
  | Val v => if hashable v then Return tt else Raise (unhashable v)
  | NaN => Return tt
  end.

(** [trusted.get(country, d)] for a key that has a hash: only text is a key
    of the table. *)
Definition trusted_get (country : cell) (d : list string) : list string :=
  match country with
  | Text c => default d (trusted !! c)
  | _ => d
  end.

Definition find_trusted_distributors (country : cell) : result DataFrame :=
  try_except
    (_ ← hash_key country;
     mret (pd.from_list_and_scalar
             "Distributor"
             (map (λ name, Text name) (trusted_get country ["No trusted partners listed"]))
             "Country" country))
    (λ e, mret (pd.from_records
                  [[("Distributor", Text "Error"); ("Country", country);
                    ("Details", Text (str_exn e))]])).

(** ** Stage 5: export report generation *)

(** A summary value inside an f-string: a [str] prints as itself, a list as
    its [repr]. *)
Definition format_value {W : World} (v : value) : string :=
  match v with
  | VStr s => s
  | VList l => "[" +:+ join ", " (map repr_str l) +:+ "]"
  end.

(** [', '.join(v)]: over a list its items, over a [str] its characters. *)
Definition join_value (sep : string) (v : value) : string :=
  match v with
  | VStr s => join sep (chars s)
  | VList l => join sep l
  end.

(** One group of the distributor listing: a heading and a bullet per name. *)
Definition dist_section {W : World} (country : cell) (group : DataFrame)
  : result string :=
  names ← pd.getitem group "Distributor";
  mret ("**" +:+ format_cell country +:+ " Distributors:**" +:+ LF
        +:+ join LF (map (λ name, "- " +:+ format_cell name) names)).

Definition dist_sections {W : World} (distributors_by_market : DataFrame)
  : result string :=
  groups ← pd.groupby distributors_by_market "Country";
  sections ← mapM (λ g, dist_section g.1 g.2) groups;
  mret (join (LF +:+ LF) sections).

(** The report template, one entry per literal piece or interpolated field. *)
Definition report_template (title description headings markets buyers dists : string)
  : list string :=
  [ LF;
    "        ## Export Opportunity Report"; LF;
    LF;
    "        **Brand Title:** "; title; LF;
    LF;
    "        **Meta Description:** "; description; LF;
    LF;
    "        ### Sample Product Headings"; LF;
    "        "; headings; LF;
    LF;
    "        ### Top Markets"; LF;
    "        "; markets; LF;
    LF;
    "        ### Buyer Leads"; LF;
    "        "; buyers; LF;
    LF;
    "        ### Trusted Distributors by Country"; LF;
    "        "; dists; LF;
    "        " ].

Definition create_report {W : World} (brand_data : gmap string value)
    (market_data buyers distributors_by_market : DataFrame) : result string :=
  try_except
    (dists ← dist_sections distributors_by_market;
     let title := format_value (default (VStr "N/A") (brand_data !! "Page Title")) in
     let description :=
       format_value (default (VStr "N/A") (brand_data !! "Meta Description")) in
     let headings :=
       join_value ", " (default (VList []) (brand_data !! "Product Headings")) in
     markets ← to_markdown market_data;
     buyers_md ← to_markdown buyers;
     let report_md :=
       String.concat "" (report_template title description headings markets buyers_md dists) in
     mret report_md)
    (λ e, mret ("Report generation failed: " +:+ str_exn e)).

(** [s.encode()]: the UTF-8 bytes of the text, which are the text as held
    here, unless the encoder refuses it. *)
Definition str_encode {W : World} (s : string) : result string :=
  match encode_error s with
  | Some e => Raise e
  | None => Return s
  end.

(** *** Base64 ([base64.b64encode]) *)

Module Base64.

Definition alphabet : string :=
  "ABCDEFGHIJKLMNOPQRSTUVWXYZabcdefghijklmnopqrstuvwxyz0123456789+/".

Definition pad : ascii := "="%char.

Definition ord (a : ascii) : Z := Z.of_N (N_of_ascii a).
Definition chr (n : Z) : ascii := ascii_of_N (Z.to_N n).

(** The character of a 6-bit group. *)
Definition digit (n : Z) : ascii :=
  default pad (String.get (Z.to_nat n) alphabet).

(** Three bytes make four digits; a last group of one or two bytes is padded
    with [=] to four characters. *)
Fixpoint b64encode (bs : string) : string :=
  match bs with
  | EmptyString => EmptyString
  | String a EmptyString =>
      String (digit (ord a / 4))
        (String (digit (ord a mod 4 * 16))
           (String pad (String pad EmptyString)))
  | String a (String b EmptyString) =>
      String (digit (ord a / 4))
        (String (digit (ord a mod 4 * 16 + ord b / 16))
           (String (digit (ord b mod 16 * 4))
              (String pad EmptyString)))
  | String a (String b (String c rest)) =>
      String (digit (ord a / 4))
        (String (digit (ord a mod 4 * 16 + ord b / 16))
           (String (digit (ord b mod 16 * 4 + ord c / 64))
              (String (digit (ord c mod 64)) (b64encode rest))))
  end.

End Base64.

(** [f'<a href="data:file/txt;base64,{b64}" download="{download_filename}">{link_text}</a>'] *)
Definition link_prefix : string := "<a href=" +:+ DQ +:+ "data:file/txt;base64,".

Definition download_link {W : World} (object_to_download download_filename link_text : string)
  : result string :=
  try_except
    (bytes ← str_encode object_to_download;
     let b64 := Base64.b64encode bytes in
     mret (link_prefix +:+ b64 +:+ DQ +:+ " download=" +:+ DQ +:+ download_filename
           +:+ DQ +:+ ">" +:+ link_text +:+ "</a>"))
    (λ e, mret ("Error generating download link: " +:+ str_exn e)).

(** ** The page script *)

(** The Streamlit calls that put something on the page. *)
Inductive st_call : Type :=
| st_title (body : string)
| st_subheader (body : string)
| st_dataframe (data : DataFrame)
| st_json (body : gmap string value)
| st_error (body : string)
| st_markdown (body : string)
| st_success (body : string).

(** A run of script code: it appends to the page rendered so far and either
    yields a value or stops at an uncaught exception. *)
Definition script (A : Type) : Type := list st_call → list st_call * result A.

Definition script_ret {A} (a : A) : script A := λ page, (page, Return a).

Definition script_bind {A B} (f : A → script B) (m : script A) : script B :=
  λ page,
    match m page with
    | (page', Return a) => f a page'
    | (page', Raise e) => (page', Raise e)
    end.

Global Instance script_mret : MRet script := @script_ret.
Global Instance script_mbind : MBind script := @script_bind.

(** A Streamlit call. *)
Definition st (c : st_call) : script unit := λ page, (page ++ [c], Return tt).

(** A call of one of the stage functions. *)
Definition eval {A} (r : result A) : script A := λ page, (page, r).

(** [row['Country'] not in ["Error", "Exception"]] *)
Definition not_sentinel (c : cell) : bool :=
  bool_decide (c ∉ [Text "Error"; Text "Exception"]).

(** [[find_trusted_distributors(row['Country']) for _, row in market_df.iterrows()
      if row['Country'] not in ["Error", "Exception"]]] *)
Fixpoint distributor_frames (market_rows : list Series) : result (list DataFrame) :=
  match market_rows with
  | [] => mret []
  | row :: rest =>
      c ← pd.Series_getitem row "Country";
      if not_sentinel c then
        country ← pd.Series_getitem row "Country";
        df ← find_trusted_distributors country;
        dfs ← distributor_frames rest;
        mret (df :: dfs)
      else distributor_frames rest
  end.

Definition distributor_df_list (market_df : DataFrame) : result (list DataFrame) :=
  distributor_frames (pd.iterrows market_df).

(** [pd.concat(distributor_df_list, ignore_index=True) if distributor_df_list
     else pd.DataFrame()] *)
Definition distributors_df_of (l : list DataFrame) : result DataFrame :=
  match l with
  | [] => Return pd.empty
  | _ => pd.concat l
  end.

(** The buyer table of the render: the uploaded CSV, an empty frame when it
    does not parse, the built-in list when nothing was uploaded. *)
Definition buyer_stage {W : World} (product_keywords : string)
    (uploaded_file : option string) : script DataFrame :=
  match uploaded_file with
  | Some f =>
      match read_csv f with
      | Return buyer_df => _ ← st (st_dataframe buyer_df); mret buyer_df
      | Raise e => _ ← st (st_error ("Failed to read CSV: " +:+ str_exn e)); mret pd.empty
      end
  | None => eval (fetch_buyer_list (or_else product_keywords "Mobility equipment"))
  end.

(** The block under [if brand_url:]. *)
Definition workflow {W : World} (brand_url product_keywords : string)
    (buyer_df : DataFrame) : script unit :=
  site_info ← eval (scrape_site brand_url);
  match site_info !! "error" with
  | Some err => st (st_error (format_value err))
  | None =>
      _ ← st (st_subheader "🔎 Brand Summary");
      _ ← st (st_json site_info);
      _ ← st (st_subheader "📈 Top Export Markets");
      market_df ← eval (suggest_markets (or_else product_keywords "Mobility equipment"));
      _ ← st (st_dataframe market_df);
      _ ← st (st_subheader "🤝 Buyer Leads");
      _ ← st (st_dataframe buyer_df);
      _ ← st (st_subheader "🏢 Trusted Distributors in Top Markets");
      df_list ← eval (distributor_df_list market_df);
      distributors_df ← eval (distributors_df_of df_list);
      _ ← st (st_dataframe distributors_df);
      report_md ← eval (create_report site_info market_df buyer_df distributors_df);
      _ ← st (st_subheader "📄 Export Opportunity Report");
      _ ← st (st_markdown report_md);
      dl_link ← eval (download_link report_md "export_report.md" "📅 Download Full Report");
      _ ← st (st_markdown dl_link);
      st (st_success "Report generated using live and uploaded data!")
  end.

(** The whole script, on the values of its three input widgets. *)
Definition app {W : World} (brand_url product_keywords : string)
    (uploaded_file : option string) : script unit :=
  _ ← st (st_title "🌍 EMC Export Opportunity Finder");
  _ ← st (st_subheader "📄 Upload ExportYeti or Buyer List CSV");
  buyer_df ← buyer_stage product_keywords uploaded_file;
  _ ← (match brand_url with
       | EmptyString => mret tt
       | _ => workflow brand_url product_keywords buyer_df
       end);
  _ ← st (st_markdown "---");
  st (st_markdown "Created as an EMC automation prototype. Supports CSV uploads, product scraping, and distributor sourcing.").

(** The page a run renders, and the exception it stops at, if any. *)
Definition render {W : World} (brand_url product_keywords : string)
    (uploaded_file : option string) : list st_call * result unit :=
  app brand_url product_keywords uploaded_file [].

(** ** Notions the statements below are phrased with *)

(** The characters the texts of the statements are spelled with. *)
Definition nl : string := String "010"%char EmptyString.
Definition quote : string := String "034"%char EmptyString.
Definition apostrophe : string := String "039"%char EmptyString.

(** The outcome of the three calls [scrape_site] makes before it reads the
    document: the request, the status check, the parse. *)
Definition fetch_page {W : World} (url : string) : result Soup :=
  r ← requests_get url [];
  _ ← raise_for_status r;
  BeautifulSoup (text r).

(** The text of an element with its leading and trailing whitespace
    removed. *)
Definition trimmed_text (t : Tag) : string := strip (tag_text t).

(** A text by its code points: the UTF-8 encoding of each, in turn. *)
Definition code_point (n : N) : Prop := (n < 1114112)%N.

Definition utf8_char (n : N) : string :=
  (if n <? 128 then bytes [n]
   else if n <? 2048 then bytes [192 + n / 64; 128 + n mod 64]
   else if n <? 65536 then
     bytes [224 + n / 4096; 128 + (n / 64) mod 64; 128 + n mod 64]
   else
     bytes [240 + n / 262144; 128 + (n / 4096) mod 64; 128 + (n / 64) mod 64;
            128 + n mod 64])%N.

Definition utf8 (cps : list N) : string := String.concat "" (map utf8_char cps).

(** The whitespace code points, and a list of code points without those at
    its two ends. *)
Definition white_space : list N :=
  [9; 10; 11; 12; 13; 28; 29; 30; 31; 32; 133; 160; 5760;
   8192; 8193; 8194; 8195; 8196; 8197; 8198; 8199; 8200; 8201; 8202;
   8232; 8233; 8239; 8287; 12288]%N.

Fixpoint drop_white (cps : list N) : list N :=
  match cps with
  | [] => []
  | n :: cps' => if bool_decide (n ∈ white_space) then drop_white cps' else cps
  end.

Definition trim (cps : list N) : list N := rev (drop_white (rev (drop_white cps))).

(** The address [suggest_markets] asks for a product term. *)
Definition market_url (product_term : string) : string :=
  "https://comtradeapi.un.org/public/v1/preview/C/A/2010/2022/TOTAL/"
  +:+ product_term +:+ "?fmt=json".

(** The outcome of the three calls [suggest_markets] makes before it reads
    the entries: the request, the status check, the JSON decoding. *)
Definition query_market {W : World} (product_term : string) : result jvalue :=
  response ← requests_get (market_url product_term)
               [("Ocp-Apim-Subscription-Key", "YOUR_COMTRADE_API_KEY")];
  _ ← raise_for_status response;
  json response.

(** The market row [suggest_markets] makes of one entry of the response: the
    entry's two fields as the body holds them, text or not. *)
Definition market_row (item : jvalue) : result (list cell) :=
  country ← dict_get item "ptTitle" (JStr "N/A");
  score ← dict_get item "rgDesc" (JStr "N/A");
  mret [Val country; Val score].

(** The market rows of a response: one per entry read, of the first five
    entries under ["data"]; a body of another shape raises where it is
    read. *)
Definition market_rows {W : World} (product_term : string) : result (list (list cell)) :=
  data ← query_market product_term;
  entries ← dict_get data "data" (JArr []);
  items ← first_five entries;
  mapM market_row items.

(** The fields of a well-formed entry. *)
Definition entry_row (fields : list (string * jvalue)) : list cell :=
  [Val (default (JStr "N/A") (assoc "ptTitle" fields));
   Val (default (JStr "N/A") (assoc "rgDesc" fields))].

(** The record [suggest_markets] makes of a market row. *)
Definition market_record_of (r : list cell) : list (string * cell) :=
  match r with
  | [country; score] => [("Country", country); ("Demand Score", score)]
  | _ => []
  end.

(** The one-row table [suggest_markets] answers a failure with. *)
Definition market_error_table (e : exn) : DataFrame :=
  mkDataFrame ["Country"; "Demand Score"] [[Text "Error"; Text (str_exn e)]].

(** The built-in buyer table. *)
Definition mock_buyers : DataFrame :=
  mkDataFrame ["Company"; "Country"; "Contact"]
    [[Text "ExportYeti Buyers Co."; Text "USA"; Text "contact@buyexportyeti.com"];
     [Text "Global Import Ventures"; Text "Mexico"; Text "sales@globalimport.mx"];
     [Text "AsiaMed Devices"; Text "Philippines"; Text "info@asiamed.ph"]].

(** The table a distributor lookup answers with: for a country that has no
    hash the one-row error table, otherwise a row per distributor. *)
Definition distributor_table (country : cell) : DataFrame :=
  match country with
  | Val (JArr _) =>
      mkDataFrame ["Distributor"; "Country"; "Details"]
        [[Text "Error"; country;
          Text ("unhashable type: " +:+ apostrophe +:+ "list" +:+ apostrophe)]]
  | Val (JObj _) =>
      mkDataFrame ["Distributor"; "Country"; "Details"]
        [[Text "Error"; country;
          Text ("unhashable type: " +:+ apostrophe +:+ "dict" +:+ apostrophe)]]
  | _ =>
      mkDataFrame ["Distributor"; "Country"]
        (map (λ name, [Text name; country])
             (trusted_get country ["No trusted partners listed"]))
  end.

(** The ways the fetch of a page fails: the request raises (a timeout, a
    refused connection), the answer carries a client or server error status,
    or the parser raises. *)
Inductive fetch_failure {W : World} (url : string) : Prop :=
| request_raises (e : exn) :
    requests_get url [] = Raise e → fetch_failure url
| error_status (r : Response) :
    requests_get url [] = Return r → 400 ≤ status_code r < 600 → fetch_failure url
| parser_raises (r : Response) (e : exn) :
    requests_get url [] = Return r → BeautifulSoup (text r) = Raise e →
    fetch_failure url.

(** The countries a distributor lookup is made for. *)
Definition lookup_country (c : cell) : Prop :=
  c ∉ [Text "Error"; Text "Exception"].

(** A country that is a name (text), or is missing. *)
Definition name_or_missing (c : cell) : Prop :=
  match c with
  | Text _ | Val JNull | NaN => True
  | _ => False
  end.

Global Instance name_or_missing_dec (c : cell) : Decision (name_or_missing c).
Proof. destruct c as [[]|]; simpl; apply _. Defined.

(** A country that is a [list] or a [dict]. *)
Definition no_hash (c : cell) : bool :=
  match c with
  | Val (JArr _) | Val (JObj _) => true
  | _ => false
  end.

(** The cells of a column, read by label; empty for an unknown label. *)
Definition column (df : DataFrame) (c : string) : list cell :=
  map (λ r, pd.cell_at (columns df) r c) (rows df).

(** The distributors listed for a country, in table order. *)
Definition names_of (df : DataFrame) (country : string) : list cell :=
  map (λ r, pd.cell_at (columns df) r "Distributor")
      (filter (λ r, pd.cell_at (columns df) r "Country" = Text country) (rows df)).

(** One rendered group: the heading, then a bullet per distributor. *)
Definition render_group {W : World} (df : DataFrame) (country : string) : string :=
  "**" +:+ country +:+ " Distributors:**" +:+ nl
  +:+ String.concat nl
        (map (λ name, "- " +:+ match name with
                               | Text s => s
                               | Val v => str_value v
                               | NaN => "nan"
                               end)
             (names_of df country)).

(** [s in t] on text. *)
Definition is_substring (s t : string) : Prop :=
  ∃ pre post, t = pre +:+ s +:+ post.

Fixpoint starts_with (p t : string) : bool :=
  match p, t with
  | EmptyString, _ => true
  | String a p', String b t' => bool_decide (a = b) && starts_with p' t'
  | String _ _, EmptyString => false
  end.

Fixpoint contains (s t : string) : bool :=
  starts_with s t ||
  match t with
  | EmptyString => false
  | String _ t' => contains s t'
  end.

(** The fixed section headers of the report. *)
Definition section_headers : list string :=
  [ "## Export Opportunity Report";
    "**Brand Title:**";
    "**Meta Description:**";
    "### Sample Product Headings";
    "### Top Markets";
    "### Buyer Leads";
    "### Trusted Distributors by Country" ].

(** The report as the f-string of [create_report] spells it, line by line,
    around its six fields. *)
Definition report_text (title description headings markets buyers dists : string)
  : string :=
  nl
  +:+ "        ## Export Opportunity Report" +:+ nl
  +:+ nl
  +:+ "        **Brand Title:** " +:+ title +:+ nl
  +:+ nl
  +:+ "        **Meta Description:** " +:+ description +:+ nl
  +:+ nl
  +:+ "        ### Sample Product Headings" +:+ nl
  +:+ "        " +:+ headings +:+ nl
  +:+ nl
  +:+ "        ### Top Markets" +:+ nl
  +:+ "        " +:+ markets +:+ nl
  +:+ nl
  +:+ "        ### Buyer Leads" +:+ nl
  +:+ "        " +:+ buyers +:+ nl
  +:+ nl
  +:+ "        ### Trusted Distributors by Country" +:+ nl
  +:+ "        " +:+ dists +:+ nl
  +:+ "        ".

(** The ways the assembly of a report raises: grouping the distributors, or
    rendering the market table, or rendering the buyer table, in this
    order. *)
Inductive assembly_raises {W : World} (market_data buyers dists : DataFrame)
  : exn → Prop :=
| listing_raises (e : exn) :
    dist_sections dists = Raise e → assembly_raises market_data buyers dists e
| markets_raise (listing : string) (e : exn) :
    dist_sections dists = Return listing → to_markdown market_data = Raise e →
    assembly_raises market_data buyers dists e
| buyers_raise (listing markets_md : string) (e : exn) :
    dist_sections dists = Return listing →
    to_markdown market_data = Return markets_md → to_markdown buyers = Raise e →
    assembly_raises market_data buyers dists e.

(** *** Base64 as RFC 4648 defines it *)

Module RFC4648.

(** The 6-bit group of a character of the standard alphabet: [A]-[Z] stand
    for 0-25, [a]-[z] for 26-51, [0]-[9] for 52-61, [+] for 62 and [/] for
    63. *)
Definition sextet (c : ascii) : option Z :=
  let n := Z.of_N (N_of_ascii c) in
  if bool_decide (65 ≤ n ≤ 90) then Some (n - 65)
  else if bool_decide (97 ≤ n ≤ 122) then Some (n - 71)
  else if bool_decide (48 ≤ n ≤ 57) then Some (n + 4)
  else if bool_decide (n = 43) then Some 62
  else if bool_decide (n = 47) then Some 63
  else None.

Definition byte (n : Z) : ascii := ascii_of_N (Z.to_N n).

(** Decoding of padded input: four characters make three bytes, a last group
    padded with one or two [=] makes two bytes or one. *)
Fixpoint decode (s : string) : option string :=
  match s with
  | EmptyString => Some EmptyString
  | String c1 (String c2 (String c3 (String c4 rest))) =>
      v1 ← sextet c1;
      v2 ← sextet c2;
      if bool_decide (c4 = "="%char) then
        if bool_decide (rest = EmptyString) then
          if bool_decide (c3 = "="%char) then
            Some (String (byte (v1 * 4 + v2 / 16)) EmptyString)
          else
            v3 ← sextet c3;
            Some (String (byte (v1 * 4 + v2 / 16))
                    (String (byte (v2 mod 16 * 16 + v3 / 4)) EmptyString))
        else None
      else
        v3 ← sextet c3;
        v4 ← sextet c4;
        tail ← decode rest;
        Some (String (byte (v1 * 4 + v2 / 16))
                (String (byte (v2 mod 16 * 16 + v3 / 4))
                   (String (byte (v3 mod 4 * 64 + v4)) tail)))
  | _ => None
  end.

(** A character a Base64 text is made of: a letter, a digit, [+], [/], or
    the padding [=]. *)
Definition base64_char (c : ascii) : Prop :=
  let n := Z.of_N (N_of_ascii c) in
  65 ≤ n ≤ 90 ∨ 97 ≤ n ≤ 122 ∨ 48 ≤ n ≤ 57 ∨ n = 43 ∨ n = 47 ∨ n = 61.

Global Instance base64_char_dec (c : ascii) : Decision (base64_char c).
Proof. unfold base64_char. apply _. Defined.

End RFC4648.

(** What a browser reads off the download link: the characters of the [href]
    after the [base64,] marker, up to the closing quote. *)
Fixpoint strip_prefix (p s : string) : option string :=
  match p, s with
  | EmptyString, _ => Some s
  | String a p', String b s' => if bool_decide (a = b) then strip_prefix p' s' else None
  | String _ _, EmptyString => None
  end.

Fixpoint take_until (q : ascii) (s : string) : string :=
  match s with
  | EmptyString => EmptyString
  | String a s' => if bool_decide (a = q) then EmptyString else String a (take_until q s')
  end.

Definition link_payload (link : string) : option string :=
  take_until "034"%char
  <$> strip_prefix ("<a href=" +:+ quote +:+ "data:file/txt;base64,") link.

(** The download link around a payload: an anchor whose [href] is a [data:]
    address of type [file/txt] in Base64, with the file name and the link
    text. *)
Definition link_around (b64 download_filename link_text : string) : string :=
  "<a href=" +:+ quote +:+ "data:file/txt;base64," +:+ b64 +:+ quote
  +:+ " download=" +:+ quote +:+ download_filename +:+ quote
  +:+ ">" +:+ link_text +:+ "</a>".

(** The text the composer answers a table without a ["Country"] column
    with. *)
Definition failure_message : string :=
  "Report generation failed: " +:+ apostrophe +:+ "Country" +:+ apostrophe.

(** What a run of the block under [if brand_url:] adds to the page when the
    scrape succeeded. *)
Definition workflow_page (site_info : gmap string value)
    (market_df buyer_df distributors_df : DataFrame) (report_md dl_link : string)
  : list st_call :=
  [ st_subheader "🔎 Brand Summary";
    st_json site_info;
    st_subheader "📈 Top Export Markets";
    st_dataframe market_df;
    st_subheader "🤝 Buyer Leads";
    st_dataframe buyer_df;
    st_subheader "🏢 Trusted Distributors in Top Markets";
    st_dataframe distributors_df;
    st_subheader "📄 Export Opportunity Report";
    st_markdown report_md;
    st_markdown dl_link;
    st_success "Report generated using live and uploaded data!" ].

(** The calls above and below that block. *)
Definition page_head : list st_call :=
  [ st_title "🌍 EMC Export Opportunity Finder";
    st_subheader "📄 Upload ExportYeti or Buyer List CSV" ].

Definition page_foot : list st_call :=
  [ st_markdown "---";
    st_markdown "Created as an EMC automation prototype. Supports CSV uploads, product scraping, and distributor sourcing." ].

(** The countries the distributor lookup asks for on a market table: those
    of its rows, in order, but for the sentinels. *)
Definition lookups (market_df : DataFrame) : list cell :=
  filter lookup_country (column market_df "Country").

(** The table the page script combines the lookups' tables into: their rows,
    one lookup after the other, under the columns ["Distributor"] and
    ["Country"], with a third column ["Details"] as soon as one lookup failed,
    left missing on the rows of the others. *)
Definition combined_columns (calls : list cell) : list string :=
  if existsb no_hash calls then ["Distributor"; "Country"; "Details"]
  else ["Distributor"; "Country"].

Definition widen (cols : list string) (r : list cell) : list cell :=
  match cols, r with
  | [_; _; _], [name; country] => [name; country; NaN]
  | _, _ => r
  end.

Definition combined_table (calls : list cell) : DataFrame :=
  match calls with
  | [] => pd.empty
  | _ => mkDataFrame (combined_columns calls)
           (flat_map (λ c, map (widen (combined_columns calls))
                               (rows (distributor_table c))) calls)
  end.

(** The countries the built-in distributor table knows. *)
Definition known_countries : list cell :=
  [Text "USA"; Text "Mexico"; Text "Philippines"].

(** A cell that holds text. *)
Definition has_text (c : cell) : Prop :=
  match c with
  | Text _ => True
  | _ => False
  end.

Global Instance has_text_dec (c : cell) : Decision (has_text c).
Proof. destruct c as [[]|]; simpl; apply _. Defined.

(** The country cell of a row. *)
Definition country_of (df : DataFrame) (r : list cell) : cell :=
  pd.cell_at (columns df) r "Country".

(** The heading of a country's group in the distributor listing. *)
Definition group_heading (country : string) : string :=
  "**" +:+ country +:+ " Distributors:**".

(** What the buyer stage puts on the page, and the buyer table it leaves:
    nothing and the built-in list without an upload, the parsed table shown
    and kept for an upload that parses, the error shown and an empty frame
    kept for one that does not. *)
Inductive buyer_part {W : World} (uploaded_file : option string)
  : list st_call → DataFrame → Prop :=
| nothing_uploaded :
    uploaded_file = None → buyer_part uploaded_file [] mock_buyers
| upload_parsed (f : string) (buyer_df : DataFrame) :
    uploaded_file = Some f → read_csv f = Return buyer_df →
    buyer_part uploaded_file [st_dataframe buyer_df] buyer_df
| upload_refused (f : string) (e : exn) :
    uploaded_file = Some f → read_csv f = Raise e →
    buyer_part uploaded_file [st_error ("Failed to read CSV: " +:+ str_exn e)] pd.empty.

(** What the block under [if brand_url:] puts on the page: nothing without a
    URL, the scrape error alone after a failed fetch, and otherwise the twelve
    calls of a full run, around the outcomes of the stages. *)
Inductive page_body {W : World} (brand_url product_keywords : string)
    (buyer_df : DataFrame) : list st_call → Prop :=
| no_url : brand_url = "" → page_body brand_url product_keywords buyer_df []
| scrape_failed (e : exn) :
    brand_url ≠ "" → fetch_page brand_url = Raise e →
    page_body brand_url product_keywords buyer_df
      [st_error ("Unable to scrape site: " +:+ str_exn e)]
| report_shown (soup : Soup) (site_info : gmap string value)
    (market_df distributors_df : DataFrame) (report_md dl_link : string) :
    brand_url ≠ "" → fetch_page brand_url = Return soup →
    scrape_site brand_url = Return site_info →
    suggest_markets (or_else product_keywords "Mobility equipment") = Return market_df →
    (df_list ← distributor_df_list market_df; distributors_df_of df_list)
    = Return distributors_df →
    create_report site_info market_df buyer_df distributors_df = Return report_md →
    download_link report_md "export_report.md" "📅 Download Full Report" = Return dl_link →
    page_body brand_url product_keywords buyer_df
      (workflow_page site_info market_df buyer_df distributors_df report_md dl_link).

(** ** Fixture worlds, for the concrete runs *)

(** Stand-ins for [str] and for the table renderer: a line of labels, then a
    line per row. *)
Definition plain_str (v : jvalue) : string :=
  match v with
  | JNull => "None"
  | JBool true => "True"
  | JBool false => "False"
  | JInt n => str_int n
  | JFloat literal => literal
  | JStr s => s
  | JArr _ => "[...]"
  | JObj _ => "{...}"
  end.

Definition plain_cell (c : cell) : string :=
  match c with
  | Val v => plain_str v
  | NaN => "nan"
  end.

Definition plain_table (df : DataFrame) : string :=
  join LF (map (λ r, join " | " (map plain_cell r))
               (map (λ label, Text label) (columns df) :: rows df)).

(** The page of the end-to-end scenario: a title, no meta description, three
    headings longer than five characters (and one that is not). *)
Definition acme_html : string :=
  "<html><head><title>Acme Mobility</title></head><body><h1>Power Wheelchairs</h1><h2>Home</h2><h2>Mobility Scooters</h2><h3>Patient Lifts</h3></body></html>".

Definition heading (s : string) : Tag := mkTag [s] ∅.

Definition acme_soup : Soup :=
  mkSoup (Some (mkTag ["Acme Mobility"] ∅)) None
    [heading "Power Wheelchairs"; heading "Home"; heading "Mobility Scooters";
     heading "Patient Lifts"].

(** A page whose headings hold markup of their own: each heading is several
    text fragments. *)
Definition nested_html : string :=
  "<html><body><h1>Power <b>Wheelchairs</b></h1><h2>A <i>to</i> Z</h2></body></html>".

Definition nested_soup : Soup :=
  mkSoup None None [mkTag ["Power "; "Wheelchairs"] ∅; mkTag ["A "; "to"; " Z"] ∅].

(** A document without a title, a meta description or a heading. *)
Definition blank_soup : Soup := mkSoup None None [].

(** A stand-in parser: it reads the two pages above, and finds nothing in any
    other text. *)
Definition parse_fixture (markup : string) : result Soup :=
  if bool_decide (markup = acme_html) then Return acme_soup
  else if bool_decide (markup = nested_html) then Return nested_soup
  else Return blank_soup.

(** A world that answers the scrape request (the one sent without headers)
    with [site] and the market request with [market], and encodes every
    text.  No run below slices a [dict] or groups by numbers. *)
Definition fixture (site market : result Response) : World :=
  {| requests_get := λ _ headers, match headers with [] => site | _ => market end;
     BeautifulSoup := parse_fixture;
     read_csv := λ _, Raise (Exception "EmptyDataError" "No columns to parse from file");
     to_markdown := λ df, Return (plain_table df);
     encode_error := λ _, None;
     repr_str := λ s, SQ +:+ s +:+ SQ;
     str_value := plain_str;
     dict_slice_error := TypeError ("unhashable type: " +:+ SQ +:+ "slice" +:+ SQ);
     groupby_numbers := λ _ _, Raise (Exception "NotImplementedError" "numeric keys") |}.

(** A body that is no JSON. *)
Definition no_json {A} : result A :=
  Raise (Exception "JSONDecodeError" "Expecting value: line 1 column 1 (char 0)").

Definition acme_response : Response :=
  mkResponse 200 "OK" "https://acme.example/" acme_html no_json.

Definition timed_out {A} : result A :=
  Raise (Exception "ConnectTimeout" "Connection to comtradeapi.un.org timed out.").

(** The scenario's world: the site answers, the market endpoint refuses the
    placeholder key. *)
Definition acme_world : World :=
  fixture (Return acme_response)
    (Return (mkResponse 401 "Unauthorized"
               "https://comtradeapi.un.org/public/v1/preview/C/A/2010/2022/TOTAL/Mobility%20equipment?fmt=json"
               "" no_json)).

(** A site whose headings are nested. *)
Definition nested_world : World :=
  fixture (Return (mkResponse 200 "OK" "https://acme.example/" nested_html no_json))
    timed_out.

(** A site that answers 304 Not Modified, with no body. *)
Definition not_modified_world : World :=
  fixture (Return (mkResponse 304 "Not Modified" "https://acme.example/" "" no_json))
    timed_out.

(** A site that answers 404 Not Found. *)
Definition not_found_world : World :=
  fixture (Return (mkResponse 404 "Not Found" "https://acme.example/gone" "" no_json))
    timed_out.

(** A market endpoint that answers with the given body; of its answer only
    the status and the decoded body are read. *)
Definition answer_world (body : jvalue) : World :=
  fixture (Return acme_response)
    (Return (mkResponse 200 "OK"
               "https://comtradeapi.un.org/public/v1/preview/C/A/2010/2022/TOTAL/Mobility%20equipment?fmt=json"
               "" (Return body))).

(** A market endpoint that answers with the given entries. *)
Definition market_world (entries : list jvalue) : World :=
  answer_world (JObj [("data", JArr entries)]).

Definition entry (country score : string) : jvalue :=
  JObj [("ptTitle", JStr country); ("rgDesc", JStr score)].

(** The combined distributor table the page script builds for the markets
    USA and Mexico, in this order. *)
Definition usa_then_mexico : DataFrame :=
  mkDataFrame ["Distributor"; "Country"]
    [[Text "MedEquip USA"; Text "USA"];
     [Text "Trusted Medical Supplies"; Text "USA"];
     [Text "Distribuciones SaludMX"; Text "Mexico"];
     [Text "Grupo Médico MX"; Text "Mexico"]].

(** A distributor table with its two columns and no row. *)
Definition no_distributors : DataFrame :=
  mkDataFrame ["Distributor"; "Country"] [].

(** A market endpoint naming USA and Mexico, and the market table made of
    its answer. *)
Definition two_markets_world : World :=
  market_world [entry "USA" "Import"; entry "Mexico" "Import"].

Definition two_markets : DataFrame :=
  mkDataFrame ["Country"; "Demand Score"]
    [[Text "USA"; Text "Import"]; [Text "Mexico"; Text "Import"]].

(** A market endpoint whose second entry names its partner by a list of
    codes, and has no flow description. *)
Definition listed_partner_world : World :=
  market_world
    [entry "USA" "Import";
     JObj [("ptTitle", JArr [JInt 484; JInt 608]); ("rgDesc", JNull)]].

(** * Properties *)

(** ** The error monad *)

Lemma bind_Return {A B} (a : A) (f : A → result B) : (Return a ≫= f) = f a.
Proof. reflexivity. Qed.

(** A [try] whose handler returns never raises. *)
Lemma try_except_returns {A} (body : result A) (h : exn → A) :
  ∃ a, try_except body (λ e, Return (h e)) = Return a.
Proof. destruct body; simpl; eauto. Qed.

Lemma mapM_Return {A B} (f : A → result B) (g : A → B) (l : list A) :
  (∀ x, x ∈ l → f x = Return (g x)) → mapM f l = Return (g <$> l).
Proof.
  induction l as [|x l IH]; intros Hf; simpl; [done|].
  rewrite Hf by (apply elem_of_cons; auto). simpl.
  rewrite IH by (intros; apply Hf, elem_of_cons; auto). done.
Qed.

(** Mapping a function that post-processes another one. *)
Lemma mapM_post {A B C} (f : A → result C) (g : A → result B) (h : B → C) (l : list A) :
  (∀ x, f x = (y ← g x; mret (h y))) →
  mapM f l = (ys ← mapM g l; mret (map h ys)).
Proof.
  intros Hf. induction l as [|x l IH]; [done|].
  cbn [mapM]. rewrite Hf, IH.
  destruct (g x) as [y|e]; [|done]. simpl.
  by destruct (mapM g l).
Qed.

Lemma mapM_results {A B} (f : A → result B) (P : B → Prop) (l : list A) (ys : list B) :
  (∀ x y, f x = Return y → P y) →
  mapM f l = Return ys → Forall P ys ∧ length ys = length l.
Proof.
  intros Hf. revert ys. induction l as [|x l IH]; intros ys; cbn [mapM].
  - intros [= <-]. by split.
  - destruct (f x) as [y|e] eqn:Hy; [|done]. simpl.
    destruct (mapM f l) as [ys'|e]; [|done]. simpl. intros [= <-].
    destruct (IH ys' eq_refl) as [IHP IHl]. split; [|simpl; by rewrite IHl].
    constructor; eauto.
Qed.

(** ** Text *)

Lemma app_String (a : ascii) (s t : string) : String a s +:+ t = String a (s +:+ t).
Proof. reflexivity. Qed.

Lemma app_empty_r (s : string) : s +:+ "" = s.
Proof. induction s as [|a s IH]; [done|]. by rewrite app_String, IH. Qed.

Lemma app_assoc_r (s t u : string) : (s +:+ t) +:+ u = s +:+ t +:+ u.
Proof. induction s as [|a s IH]; [done|]. by rewrite !app_String, IH. Qed.

Lemma starts_with_spec (s t : string) :
  starts_with s t = true ↔ ∃ post, t = s +:+ post.
Proof.
  revert t. induction s as [|a s IH]; intros t; simpl.
  - split; [intros _; by exists t|done].
  - destruct t as [|b t].
    + split; [done|]. by intros [post Hp].
    + rewrite andb_true_iff, bool_decide_eq_true, IH. split.
      * intros [-> [post ->]]. by exists post.
      * intros [post Hp]. rewrite app_String in Hp. simplify_eq. eauto.
Qed.

Lemma contains_spec (s t : string) : contains s t = true ↔ is_substring s t.
Proof.
  unfold is_substring. induction t as [|b t IH].
  - simpl. rewrite orb_false_r, starts_with_spec. split.
    + intros [post Hp]. by exists "", post.
    + intros ([|a pre] & post & Hp); [by exists post|]. by rewrite app_String in Hp.
  - cbn [contains]. rewrite orb_true_iff, starts_with_spec, IH. split.
    + intros [[post Hp]|(pre & post & Hp)].
      * by exists "", post.
      * exists (String b pre), post. by rewrite app_String, <-Hp.
    + intros ([|a pre] & post & Hp).
      * left. by exists post.
      * right. rewrite app_String in Hp. simplify_eq. by exists pre, post.
Qed.

Lemma concat_cons (x : string) (l : list string) :
  String.concat "" (x :: l) = x +:+ String.concat "" l.
Proof. destruct l; simpl; [by rewrite app_empty_r|done]. Qed.

Lemma concat_app (l1 l2 : list string) :
  String.concat "" (l1 ++ l2) = String.concat "" l1 +:+ String.concat "" l2.
Proof.
  induction l1 as [|x l1 IH]; [done|].
  rewrite <-app_comm_cons, !concat_cons, IH. by rewrite app_assoc_r.
Qed.

(** What one piece of a text shows, the text shows. *)
Lemma is_substring_concat (h x : string) (l : list string) :
  is_substring h x → x ∈ l → is_substring h (String.concat "" l).
Proof.
  intros (pre & post & ->) (l1 & l2 & ->)%list_elem_of_split.
  exists (String.concat "" l1 +:+ pre), (post +:+ String.concat "" l2).
  by rewrite concat_app, concat_cons, !app_assoc_r.
Qed.

Lemma is_substring_refl (s : string) : is_substring s s.
Proof. exists "", "". by rewrite app_empty_r. Qed.

Lemma is_substring_trans (s t u : string) :
  is_substring s t → is_substring t u → is_substring s u.
Proof.
  intros (p1 & q1 & ->) (p2 & q2 & ->).
  exists (p2 +:+ p1), (q1 +:+ q2). by rewrite !app_assoc_r.
Qed.

Lemma is_substring_app_l (s t u : string) : is_substring s t → is_substring s (t +:+ u).
Proof. intros (p & q & ->). exists p, (q +:+ u). by rewrite !app_assoc_r. Qed.

Lemma is_substring_app_r (s t u : string) : is_substring s u → is_substring s (t +:+ u).
Proof. intros (p & q & ->). exists (t +:+ p), q. by rewrite !app_assoc_r. Qed.

Lemma is_substring_join (sep x : string) (l : list string) :
  x ∈ l → is_substring x (join sep l).
Proof.
  induction l as [|y l IH]; [by intros ?%elem_of_nil|].
  intros [->|Hx]%elem_of_cons.
  - destruct l; [apply is_substring_refl|]. cbn [join].
    apply is_substring_app_l, is_substring_refl.
  - destruct l as [|z l]; [by apply elem_of_nil in Hx|].
    change (join sep (y :: z :: l)) with (y +:+ sep +:+ join sep (z :: l)).
    by apply is_substring_app_r, is_substring_app_r, IH.
Qed.

Lemma join_concat (sep : string) (l : list string) : join sep l = String.concat sep l.
Proof.
  induction l as [|x [|y l] IH]; [done..|].
  cbn [join String.concat] in *. by rewrite IH.
Qed.

(** *** Length in code points *)

Lemma len_app (s t : string) : len (s +:+ t) = (len s + len t)%nat.
Proof. induction s as [|a s IH]; [done|]. rewrite app_String. simpl. rewrite IH. lia. Qed.

Lemma is_continuation_byte (n : N) :
  (n < 256)%N → is_continuation (ascii_of_N n) = ((128 <=? n) && (n <? 192))%N.
Proof. intros Hn. unfold is_continuation. by rewrite N_ascii_embedding. Qed.

Lemma len_lead_byte (n : N) (s : string) :
  (n < 128 ∨ 192 ≤ n < 256)%N → len (String (ascii_of_N n) s) = S (len s).
Proof.
  intros Hn. cbn [len]. rewrite is_continuation_byte by lia.
  destruct (N.leb_spec 128 n), (N.ltb_spec n 192); simpl; lia.
Qed.

Lemma len_continuation_byte (n : N) (s : string) :
  (128 ≤ n < 192)%N → len (String (ascii_of_N n) s) = len s.
Proof.
  intros Hn. cbn [len]. rewrite is_continuation_byte by lia.
  destruct (N.leb_spec 128 n), (N.ltb_spec n 192); simpl; lia.
Qed.

(** The encoding of a code point is one character long. *)
Lemma len_utf8_char (n : N) : code_point n → len (utf8_char n) = 1%nat.
Proof.
  unfold code_point, utf8_char. intros Hn.
  pose proof (N.mod_upper_bound n 64 ltac:(done)) as Hm0.
  pose proof (N.mod_upper_bound (n / 64) 64 ltac:(done)) as Hm1.
  pose proof (N.mod_upper_bound (n / 4096) 64 ltac:(done)) as Hm2.
  pose proof (N.le_0_l (n mod 64)) as Hp0.
  pose proof (N.le_0_l ((n / 64) mod 64)) as Hp1.
  pose proof (N.le_0_l ((n / 4096) mod 64)) as Hp2.
  destruct (N.ltb_spec n 128); [|destruct (N.ltb_spec n 2048); [|destruct (N.ltb_spec n 65536)]];
    cbn [bytes fold_right].
  - by rewrite len_lead_byte by lia.
  - assert (n / 64 < 32)%N as Hd by (apply N.Div0.div_lt_upper_bound; lia).
    pose proof (N.le_0_l (n / 64)) as Hq.
    rewrite len_lead_byte by lia. by rewrite len_continuation_byte by lia.
  - assert (n / 4096 < 16)%N as Hd by (apply N.Div0.div_lt_upper_bound; lia).
    pose proof (N.le_0_l (n / 4096)) as Hq.
    rewrite len_lead_byte by lia. rewrite len_continuation_byte by lia.
    by rewrite len_continuation_byte by lia.
  - assert (n / 262144 < 5)%N as Hd by (apply N.Div0.div_lt_upper_bound; lia).
    pose proof (N.le_0_l (n / 262144)) as Hq.
    rewrite len_lead_byte by lia. rewrite len_continuation_byte by lia.
    rewrite len_continuation_byte by lia. by rewrite len_continuation_byte by lia.
Qed.

(** [len] counts code points. *)
Lemma len_utf8 (cps : list N) : Forall code_point cps → len (utf8 cps) = length cps.
Proof.
  unfold utf8. induction 1 as [|n cps Hn _ IH]; [done|].
  rewrite map_cons, concat_cons, len_app, IH, len_utf8_char by done. done.
Qed.

(** *** Characters and whitespace *)

Lemma ascii_of_N_inj (x y : N) :
  (x < 256)%N → (y < 256)%N → ascii_of_N x = ascii_of_N y → x = y.
Proof.
  intros Hx Hy Heq. apply (f_equal N_of_ascii) in Heq.
  by rewrite !N_ascii_embedding in Heq.
Qed.

(** The bytes of a code point, by its range. *)
Lemma utf8_char_bytes (n : N) :
  code_point n →
  ∃ l, utf8_char n = bytes l ∧ Forall (λ b, (b < 256)%N) l
       ∧ match l with
         | [a] => n = a ∧ (a < 128)%N
         | [a; b] => (n = 64 * (a - 192) + (b - 128) ∧ 192 ≤ a < 224 ∧ 128 ≤ b < 192)%N
         | [a; b; c] =>
             (n = 4096 * (a - 224) + 64 * (b - 128) + (c - 128)
              ∧ 224 ≤ a < 240 ∧ 128 ≤ b < 192 ∧ 128 ≤ c < 192)%N
         | [a; b; c; d] =>
             (n = 262144 * (a - 240) + 4096 * (b - 128) + 64 * (c - 128) + (d - 128)
              ∧ 240 ≤ a < 248 ∧ 128 ≤ b < 192 ∧ 128 ≤ c < 192 ∧ 128 ≤ d < 192)%N
         | _ => False
         end.
Proof.
  unfold code_point, utf8_char. intros Hn.
  pose proof (N.mod_upper_bound n 64 ltac:(done)) as Hm0.
  pose proof (N.mod_upper_bound (n / 64) 64 ltac:(done)) as Hm1.
  pose proof (N.mod_upper_bound (n / 4096) 64 ltac:(done)) as Hm2.
  pose proof (N.le_0_l (n mod 64)) as Hp0.
  pose proof (N.le_0_l ((n / 64) mod 64)) as Hp1.
  pose proof (N.le_0_l ((n / 4096) mod 64)) as Hp2.
  pose proof (N.div_mod n 64 ltac:(done)) as Hd0.
  pose proof (N.div_mod (n / 64) 64 ltac:(done)) as Hd1.
  pose proof (N.div_mod (n / 4096) 64 ltac:(done)) as Hd2.
  rewrite N.Div0.div_div in Hd1. change (64 * 64)%N with 4096%N in Hd1.
  rewrite N.Div0.div_div in Hd2. change (4096 * 64)%N with 262144%N in Hd2.
  pose proof (N.le_0_l (n / 64)) as Hq0.
  pose proof (N.le_0_l (n / 4096)) as Hq1.
  pose proof (N.le_0_l (n / 262144)) as Hq2.
  destruct (N.ltb_spec n 128); [|destruct (N.ltb_spec n 2048); [|destruct (N.ltb_spec n 65536)]];
    eexists; (split; [reflexivity|]).
  - split; [repeat constructor; lia|]. lia.
  - assert (n / 64 < 32)%N as Hd by (apply N.Div0.div_lt_upper_bound; lia).
    split; [repeat constructor; lia|]. lia.
  - assert (n / 4096 < 16)%N as Hd by (apply N.Div0.div_lt_upper_bound; lia).
    split; [repeat constructor; lia|]. lia.
  - assert (n / 262144 < 5)%N as Hd by (apply N.Div0.div_lt_upper_bound; lia).
    split; [repeat constructor; lia|]. lia.
Qed.

Lemma bytes_inj (l l' : list N) :
  Forall (λ b, (b < 256)%N) l → Forall (λ b, (b < 256)%N) l' →
  bytes l = bytes l' → l = l'.
Proof.
  intros Hl. revert l'. induction Hl as [|a l Ha _ IH]; intros l' Hl' Heq.
  - by destruct l'.
  - destruct Hl' as [|a' l' Ha' Hl']; [done|].
    simpl in Heq. injection Heq as Ha_eq Hrest.
    f_equal; [by apply ascii_of_N_inj|by apply IH].
Qed.

Lemma utf8_char_inj (n m : N) :
  code_point n → code_point m → utf8_char n = utf8_char m → n = m.
Proof.
  intros (l & Hl & Hb & Hn)%utf8_char_bytes (l' & Hl' & Hb' & Hm)%utf8_char_bytes Heq.
  rewrite Hl, Hl' in Heq. apply bytes_inj in Heq; [|done..]. subst l'.
  destruct l as [|a [|b [|c [|d [|? ?]]]]]; try done; lia.
Qed.

Lemma is_space_utf8_char (n : N) :
  code_point n → is_space (utf8_char n) = bool_decide (n ∈ white_space).
Proof.
  intros Hn. unfold is_space.
  assert (whitespace = map utf8_char white_space) as -> by reflexivity.
  apply bool_decide_ext. rewrite list_elem_of_fmap. split.
  - intros (m & Heq & Hm).
    assert (Forall code_point white_space) as Hws
      by (unfold code_point; apply (bool_decide_unpack _); vm_compute; exact I).
    rewrite Forall_forall in Hws.
    by apply utf8_char_inj in Heq as ->; auto.
  - eauto.
Qed.

Lemma continuation_byte (b : N) :
  (128 ≤ b < 192)%N → is_continuation (ascii_of_N b) = true.
Proof.
  intros Hb. rewrite is_continuation_byte by lia.
  destruct (N.leb_spec 128 b), (N.ltb_spec b 192); simpl; lia.
Qed.

Lemma lead_byte (b : N) :
  (b < 128 ∨ 192 ≤ b < 256)%N → is_continuation (ascii_of_N b) = false.
Proof.
  intros Hb. rewrite is_continuation_byte by lia.
  destruct (N.leb_spec 128 b), (N.ltb_spec b 192); simpl; lia.
Qed.

Lemma utf8_cons (n : N) (cps : list N) : utf8 (n :: cps) = utf8_char n +:+ utf8 cps.
Proof. unfold utf8. by rewrite map_cons, concat_cons. Qed.

(** A text made of code points does not begin inside a character. *)
Lemma utf8_starts_at_character (cps : list N) :
  Forall code_point cps → starts_with_continuation (utf8 cps) = false.
Proof.
  intros [|n cps' Hn _]; [done|]. rewrite utf8_cons.
  destruct (utf8_char_bytes n Hn) as (l & -> & _ & Hl).
  destruct l as [|a [|b [|c [|d [|? ?]]]]]; try done; simpl; apply lead_byte; lia.
Qed.

Lemma chars_String (a : ascii) (s : string) :
  chars (String a s)
  = if starts_with_continuation s then
      match chars s with
      | c :: cs => String a c :: cs
      | [] => [String a EmptyString]
      end
    else String a EmptyString :: chars s.
Proof. reflexivity. Qed.

(** The characters of a text are its code points. *)
Lemma chars_utf8 (cps : list N) :
  Forall code_point cps → chars (utf8 cps) = map utf8_char cps.
Proof.
  induction 1 as [|n cps Hn Hcps IH]; [done|].
  rewrite utf8_cons, map_cons.
  pose proof (utf8_starts_at_character cps Hcps) as Hstart.
  destruct (utf8_char_bytes n Hn) as (l & Hl & _ & Hshape). rewrite Hl.
  destruct l as [|a [|b [|c [|d [|? ?]]]]]; try done;
    cbn [bytes fold_right]; rewrite !app_String; change ("" +:+ utf8 cps) with (utf8 cps);
    rewrite !chars_String; cbn [starts_with_continuation];
    rewrite ?continuation_byte by lia; rewrite Hstart, IH; reflexivity.
Qed.

Lemma lstrip_chars_utf8 (cps : list N) :
  Forall code_point cps →
  lstrip_chars (map utf8_char cps) = map utf8_char (drop_white cps).
Proof.
  induction 1 as [|n cps Hn _ IH]; [done|].
  cbn [map lstrip_chars drop_white]. rewrite is_space_utf8_char by done.
  by destruct (bool_decide (n ∈ white_space)).
Qed.

Lemma drop_white_code_points (cps : list N) :
  Forall code_point cps → Forall code_point (drop_white cps).
Proof.
  induction 1 as [|n cps Hn Hcps IH]; [done|].
  simpl. destruct (bool_decide (n ∈ white_space)); [done|by constructor].
Qed.


(** [strip] removes the whitespace code points at both ends. *)
Lemma strip_utf8 (cps : list N) :
  Forall code_point cps → strip (utf8 cps) = utf8 (trim cps).
Proof.
  intros Hcps. unfold strip, trim.
  rewrite chars_utf8, lstrip_chars_utf8 by done.
  rewrite <-map_rev, lstrip_chars_utf8
    by (apply Forall_rev, drop_white_code_points, Hcps).
  by rewrite <-map_rev, join_concat.
Qed.

(** ** Stage 1: the scraper *)

Section scraper.
Context `{W : World}.

(** The two shapes of a scrape result. *)
Lemma scrape_site_cases (url : string) :
  scrape_site url =
  match fetch_page url with
  | Return soup =>
      Return {[ "Page Title" :=
                  VStr (match soup_title soup with
                        | Some t => tag_text t
                        | None => "No title found"
                        end);
                "Meta Description" :=
                  VStr (match find_meta_description soup with
                        | Some m => default "No description found" (attrs m !! "content")
                        | None => "No description found"
                        end);
                "Product Headings" :=
                  VList (take 10 (map get_text_strip
                           (filter (λ item, (5 < len (get_text_strip item))%nat)
                              (find_all_h1_h2_h3 soup)))) ]}
  | Raise e => Return {[ "error" := VStr ("Unable to scrape site: " +:+ str_exn e) ]}
  end.
Proof.
  unfold scrape_site, fetch_page.
  destruct (requests_get url []) as [r|e]; simpl; [|done].
  destruct (raise_for_status r) as [[]|e]; simpl; [|done].
  destruct (BeautifulSoup (text r)) as [soup|e]; simpl; [|done].
  destruct (find_meta_description soup) as [m|]; [|done].
  by destruct (attrs m !! "content").
Qed.

Lemma raise_for_status_raises (r : Response) :
  400 ≤ status_code r < 600 → ∃ e, raise_for_status r = Raise e.
Proof.
  intros Hs. unfold raise_for_status.
  repeat case_bool_decide; eauto. lia.
Qed.

Lemma raise_for_status_passes (r : Response) :
  ¬ 400 ≤ status_code r < 600 → raise_for_status r = Return tt.
Proof.
  intros Hs. unfold raise_for_status.
  repeat case_bool_decide; try done; lia.
Qed.

Lemma fetch_failure_raises (url : string) :
  fetch_failure url ↔ ∃ e, fetch_page url = Raise e.
Proof.
  unfold fetch_page. split.
  - intros [e Hget | r Hget Hs | r e Hget Hsoup]; rewrite Hget; simpl; [eauto| |].
    + destruct (raise_for_status_raises r Hs) as [e ->]. simpl. eauto.
    + destruct (raise_for_status r) as [[]|e']; simpl; [rewrite Hsoup|]; eauto.
  - intros [e He].
    destruct (requests_get url []) as [r|e'] eqn:Hget; [|by eapply request_raises].
    destruct (decide (400 ≤ status_code r < 600)) as [Hs|Hs]; [by eapply error_status|].
    rewrite bind_Return, raise_for_status_passes, bind_Return in He by done.
    by eapply parser_raises.
Qed.

(** A page that is fetched with a status that is no error status, and
    parsed. *)
Lemma fetch_page_passes (url : string) (r : Response) (soup : Soup) :
  requests_get url [] = Return r → ¬ 400 ≤ status_code r < 600 →
  BeautifulSoup (text r) = Return soup → fetch_page url = Return soup.
Proof.
  intros Hget Hs Hsoup. unfold fetch_page.
  by rewrite Hget, bind_Return, raise_for_status_passes, bind_Return.
Qed.

(** Mapping after filtering on the mapped value is filtering the mapped list. *)
Lemma map_filter_comm {A B} (f : A → B) (P : B → Prop) `{∀ y, Decision (P y)}
    (l : list A) :
  map f (filter (λ x, P (f x)) l) = filter P (map f l).
Proof.
  induction l as [|x l IH]; [done|].
  simpl. rewrite !filter_cons. destruct (decide (P (f x))); simpl; by rewrite IH.
Qed.

(** C6 (amended). The scraper always returns a record.  A fetch that fails,
    because the request raises (timeout, network error), because the answer
    carries a 4xx or 5xx status, or because the parser raises, gives the record
    whose only key is ["error"], carrying the message; and only such a fetch
    does: an answer with any other status, outside 2xx or not, whose body
    parses is scraped like a success, into a summary without the ["error"]
    key. *)
Theorem scrape_site_failure_is_tagged (url : string) :
  ∃ site_info,
    scrape_site url = Return site_info
    ∧ (fetch_failure url →
       ∃ msg, site_info = {[ "error" := VStr ("Unable to scrape site: " +:+ msg) ]})
    ∧ (is_Some (site_info !! "error") ↔ fetch_failure url)
    ∧ ∀ r soup,
        requests_get url [] = Return r → ¬ 400 ≤ status_code r < 600 →
        BeautifulSoup (text r) = Return soup →
        site_info !! "error" = None
        ∧ site_info !! "Page Title"
          = Some (VStr (from_option tag_text "No title found" (soup_title soup)))
        ∧ dom site_info
          = ({[ "Page Title"; "Meta Description"; "Product Headings" ]} : gset string).
Proof.
  rewrite scrape_site_cases.
  destruct (fetch_page url) as [soup|e] eqn:Hpage; eexists; (split; [reflexivity|]).
  - split_and!.
    + intros [e He]%fetch_failure_raises. congruence.
    + rewrite fetch_failure_raises. simplify_map_eq.
      split; [by intros [? ?]|intros [e He]; congruence].
    + intros r soup' Hget Hs Hsoup.
      rewrite (fetch_page_passes url r soup' Hget Hs Hsoup) in Hpage.
      injection Hpage as ->. split_and!; [by simplify_map_eq| |].
      * simplify_map_eq. by destruct (soup_title soup).
      * rewrite !dom_insert_L, dom_singleton_L. set_solver.
  - split_and!.
    + intros _. eauto.
    + rewrite fetch_failure_raises. simplify_map_eq. split; eauto.
    + intros r soup Hget Hs Hsoup.
      rewrite (fetch_page_passes url r soup Hget Hs Hsoup) in Hpage. done.
Qed.

(** C7 (amended). On a page that was fetched and parsed, the headings
    returned are the first ten, in document order, of the h1-h3 texts longer
    than five characters, where the text of a heading is what
    [get_text(strip=True)] makes of it: its fragments, each one stripped, the
    empty ones dropped, joined without separator.  There are at most ten, and
    each has more than five code points, whatever code points it is made of:
    the length of a text is the number of its code points, and stripping it
    removes the whitespace code points at its two ends. *)
Theorem scrape_site_headings (url : string) (soup : Soup) :
  fetch_page url = Return soup →
  ∃ site_info headings,
    scrape_site url = Return site_info
    ∧ site_info !! "Product Headings" = Some (VList headings)
    ∧ headings
      = take 10
          (filter (λ t, (5 < len t)%nat)
             (map (λ item, join "" (filter (λ s, s ≠ "") (map strip (tag_strings item))))
                  (find_all_h1_h2_h3 soup)))
    ∧ (length headings ≤ 10)%nat
    ∧ Forall (λ h, ∀ cps, Forall code_point cps → h = utf8 cps → (5 < length cps)%nat)
             headings
    ∧ ∀ cps, Forall code_point cps →
        len (utf8 cps) = length cps ∧ strip (utf8 cps) = utf8 (trim cps).
Proof.
  intros Hpage. rewrite scrape_site_cases, Hpage.
  eexists _, _. split; [reflexivity|]. split; [by simplify_map_eq|].
  pose proof (map_filter_comm get_text_strip (λ t, (5 < len t)%nat)
                (find_all_h1_h2_h3 soup)) as Hcomm.
  simpl in Hcomm. rewrite Hcomm.
  split; [done|]. split; [rewrite length_take; lia|].
  split; [|intros cps Hcps; split; [by apply len_utf8|by apply strip_utf8]].
  apply Forall_take, Forall_forall. intros h [Hh _]%list_elem_of_filter cps Hcps ->.
  by rewrite len_utf8 in Hh.
Qed.

(** The keys of a scrape result. *)
Lemma scrape_site_keys (url : string) :
  ∃ site_info,
    scrape_site url = Return site_info
    ∧ match fetch_page url with
      | Return _ =>
          dom site_info
          = ({[ "Page Title"; "Meta Description"; "Product Headings" ]} : gset string)
      | Raise _ => dom site_info = ({[ "error" ]} : gset string)
      end
    ∧ (is_Some (site_info !! "error") ↔ ∃ e, fetch_page url = Raise e).
Proof.
  rewrite scrape_site_cases.
  destruct (fetch_page url) as [soup|e]; eexists; (split; [reflexivity|]); split.
  - rewrite !dom_insert_L, dom_singleton_L. set_solver.
  - simplify_map_eq. split; [by intros [? ?]|by intros [? ?]].
  - by rewrite dom_singleton_L.
  - simplify_map_eq. split; eauto.
Qed.

End scraper.

(** ** Frames *)

Lemma flat_map_cons {A B} (f : A → list B) (x : A) (l : list A) :
  flat_map f (x :: l) = f x ++ flat_map f l.
Proof. reflexivity. Qed.

Lemma flat_map_same {A B} (f g : A → list B) (l : list A) :
  Forall (λ x, f x = g x) l → flat_map f l = flat_map g l.
Proof. induction 1 as [|x l Hx _ IH]; [done|]. by rewrite !flat_map_cons, Hx, IH. Qed.

Lemma flat_map_map {A B C} (f : B → C) (g : A → list B) (l : list A) :
  flat_map (λ x, map f (g x)) l = map f (flat_map g l).
Proof. induction l as [|x l IH]; simpl; [done|]. by rewrite map_app, IH. Qed.

Lemma elem_of_unique_from (seen l : list string) (x : string) :
  x ∈ pd.unique_from seen l ↔ x ∈ l ∧ x ∉ seen.
Proof.
  revert seen. induction l as [|y l IH]; intros seen; simpl.
  - rewrite elem_of_nil. tauto.
  - case_bool_decide as Hy.
    + rewrite IH, elem_of_cons. split; [tauto|].
      intros [[->|Hx] Hs]; [done|tauto].
    + rewrite elem_of_cons, IH, !elem_of_cons.
      destruct (decide (x = y)) as [->|Hxy]; tauto.
Qed.

Lemma NoDup_unique_from (seen l : list string) : NoDup (pd.unique_from seen l).
Proof.
  revert seen. induction l as [|y l IH]; intros seen; simpl; [constructor|].
  case_bool_decide; [done|]. constructor; [|done].
  rewrite elem_of_unique_from, elem_of_cons. tauto.
Qed.

Lemma elem_of_unique (l : list string) (x : string) : x ∈ pd.unique l ↔ x ∈ l.
Proof. unfold pd.unique. rewrite elem_of_unique_from, elem_of_nil. tauto. Qed.

Lemma unique_from_seen (seen l : list string) :
  Forall (λ x, x ∈ seen) l → pd.unique_from seen l = [].
Proof.
  induction 1 as [|x l Hx _ IH]; simpl; [done|].
  by rewrite bool_decide_eq_true_2.
Qed.

Lemma unique_pair (a b : string) (rest : list string) :
  a ≠ b → Forall (λ x, x ∈ [b; a]) rest → pd.unique (a :: b :: rest) = [a; b].
Proof.
  intros Hab Hrest. unfold pd.unique. simpl.
  case_bool_decide as Hb; [apply list_elem_of_singleton in Hb; congruence|].
  by rewrite unique_from_seen.
Qed.

Lemma flat_map_pairs {A} (a b : string) (f : A → list string) (l : list A) :
  Forall (λ x, f x = [a; b]) l → Forall (λ x, x ∈ [b; a]) (flat_map f l).
Proof.
  induction 1 as [|x l Hx _ IH]; simpl; [constructor|].
  rewrite Hx. simpl.
  constructor; [rewrite !elem_of_cons; auto|].
  constructor; [rewrite !elem_of_cons; auto|done].
Qed.

(** Records, or frames, that all carry the same two labels make a table with
    these two columns. *)
Lemma unique_flat_map_pairs {A} (a b : string) (f : A → list string) (l : list A) :
  a ≠ b → Forall (λ x, f x = [a; b]) l → l ≠ [] → pd.unique (flat_map f l) = [a; b].
Proof.
  intros Hab Hf Hl. destruct Hf as [|x l Hx Hf]; [done|].
  simpl. rewrite Hx. simpl. apply unique_pair; [done|].
  by apply flat_map_pairs.
Qed.

Lemma elem_of_text_keys (cs : list cell) (s : string) :
  s ∈ pd.text_keys cs ↔ Text s ∈ cs.
Proof.
  unfold pd.text_keys. rewrite list_elem_of_omap. split.
  - intros ([[]|] & Hin & Heq); by simplify_eq.
  - intros Hin. by exists (Text s).
Qed.

Lemma Series_getitem_label (cols : list string) (r : list cell) (c : string) :
  c ∈ cols → pd.Series_getitem (mkSeries cols r) c = Return (pd.cell_at cols r c).
Proof. intros Hc. unfold pd.Series_getitem. simpl. by rewrite bool_decide_eq_true_2. Qed.

(** ** Stage 2: the market suggestor *)

Lemma market_record_row (item : jvalue) :
  market_record item = (r ← market_row item; mret (market_record_of r)).
Proof. unfold market_record, market_row. by destruct item. Qed.

Lemma market_row_cells (item : jvalue) (r : list cell) :
  market_row item = Return r → length r = 2%nat.
Proof. unfold market_row. destruct item; simpl; try done. by intros [= <-]. Qed.

Lemma from_records_market (rs : list (list cell)) :
  Forall (λ r, length r = 2%nat) rs → rs ≠ [] →
  pd.from_records (map market_record_of rs) = mkDataFrame ["Country"; "Demand Score"] rs.
Proof.
  intros Hrs Hne. unfold pd.from_records.
  rewrite (unique_flat_map_pairs "Country" "Demand Score");
    [|done| |by destruct rs].
  - cbv zeta. f_equal. rewrite map_map. rewrite <-(map_id rs) at 2.
    apply map_ext_Forall. eapply Forall_impl; [exact Hrs|].
    intros [|c [|d [|? ?]]]; by simpl.
  - apply Forall_map. eapply Forall_impl; [exact Hrs|].
    intros [|c [|d [|? ?]]]; by simpl.
Qed.

Lemma first_five_length `{W : World} (v : jvalue) (items : list jvalue) :
  first_five v = Return items → (length items ≤ 5)%nat.
Proof.
  destruct v; simpl; try done; intros [= <-];
    rewrite ?length_map, length_take; lia.
Qed.

Section markets.
Context `{W : World}.

(** The three shapes of a market table. *)
Lemma suggest_markets_cases (product_term : string) :
  suggest_markets product_term =
  match market_rows product_term with
  | Return [] => Return pd.empty
  | Return rs => Return (mkDataFrame ["Country"; "Demand Score"] rs)
  | Raise e => Return (market_error_table e)
  end.
Proof.
  unfold suggest_markets, market_rows, query_market, market_url.
  destruct (requests_get _ _) as [r|e]; simpl; [|done].
  destruct (raise_for_status r) as [[]|e]; simpl; [|done].
  destruct (json r) as [data|e]; simpl; [|done].
  destruct (dict_get data "data" (JArr [])) as [entries|e]; simpl; [|done].
  destruct (first_five entries) as [items|e]; simpl; [|done].
  rewrite (mapM_post _ _ _ _ market_record_row).
  destruct (mapM market_row items) as [rs|e] eqn:Hrs; simpl; [|done].
  destruct rs as [|row rs]; [done|].
  destruct (mapM_results _ (λ r, length r = 2%nat) _ _ market_row_cells Hrs) as [Hcells _].
  by rewrite from_records_market.
Qed.

Lemma market_rows_shape (product_term : string) (rs : list (list cell)) :
  market_rows product_term = Return rs →
  (length rs ≤ 5)%nat ∧ Forall (λ r, length r = 2%nat) rs.
Proof.
  unfold market_rows.
  destruct (query_market product_term) as [data|e]; simpl; [|done].
  destruct (dict_get data "data" (JArr [])) as [entries|e]; simpl; [|done].
  destruct (first_five entries) as [items|e] eqn:Hitems; simpl; [|done].
  intros Hrs.
  destruct (mapM_results _ (λ r, length r = 2%nat) _ _ market_row_cells Hrs) as [Hcells Hlen].
  split; [|done]. rewrite Hlen. by eapply first_five_length.
Qed.

(** The rows made of a body of the expected shape: an object whose ["data"]
    is a list of objects. *)
Lemma market_rows_entries (product_term : string) (entries : list (list (string * jvalue))) :
  query_market product_term = Return (JObj [("data", JArr (map JObj entries))]) →
  market_rows product_term = Return (map entry_row (take 5 entries)).
Proof.
  intros Hq. unfold market_rows. rewrite Hq. simpl.
  rewrite <-(fmap_take JObj 5 entries : map JObj (take 5 entries) = take 5 (map JObj entries)).
  rewrite (mapM_Return _ (λ item, match item with
                                  | JObj fields => entry_row fields
                                  | _ => []
                                  end)).
  - f_equal. by rewrite <-list_fmap_compose.
  - by intros item (fields & -> & _)%list_elem_of_fmap.
Qed.

(** A market table has its two columns as soon as it has a row, and no
    column otherwise. *)
Lemma suggest_markets_columns (product_term : string) :
  ∃ market_df,
    suggest_markets product_term = Return market_df
    ∧ columns market_df
      = match rows market_df with [] => [] | _ => ["Country"; "Demand Score"] end.
Proof.
  rewrite suggest_markets_cases.
  destruct (market_rows product_term) as [[|r rs]|e]; by eexists.
Qed.

(** C5 (amended). The market suggestor always returns a table, of at most
    five rows of two cells each.  A table with a row has exactly the columns
    ["Country"] and ["Demand Score"]; a response without entries gives the empty
    table, which has no column.  The rows are those of the first five entries
    of the response, their fields as the body holds them; a failure (of the
    request, of the status check, of the decoding, or of a read of a body of
    another shape) gives the single row ["Error"], message. *)
Theorem suggest_markets_table (product_term : string) :
  ∃ market_df,
    suggest_markets product_term = Return market_df
    ∧ (length (rows market_df) ≤ 5)%nat
    ∧ Forall (λ r, length r = 2%nat) (rows market_df)
    ∧ columns market_df
      = match rows market_df with [] => [] | _ => ["Country"; "Demand Score"] end
    ∧ match market_rows product_term with
      | Return rs => rows market_df = rs
      | Raise e =>
          market_df = mkDataFrame ["Country"; "Demand Score"]
                        [[Text "Error"; Text (str_exn e)]]
      end
    ∧ ∀ entries,
        query_market product_term = Return (JObj [("data", JArr (map JObj entries))]) →
        rows market_df = map entry_row (take 5 entries).
Proof.
  rewrite suggest_markets_cases.
  destruct (market_rows product_term) as [rs|e] eqn:Hrows.
  - destruct (market_rows_shape _ _ Hrows) as [Hlen Hcells].
    assert (∀ entries,
              query_market product_term = Return (JObj [("data", JArr (map JObj entries))]) →
              rs = map entry_row (take 5 entries)) as Hentries.
    { intros entries Hq. rewrite (market_rows_entries _ _ Hq) in Hrows. congruence. }
    destruct rs as [|r rs]; eexists; (split; [reflexivity|]); by split_and!.
  - eexists. split; [reflexivity|]. simpl.
    split_and!; [lia|by repeat constructor|done|done|].
    intros entries Hq. by rewrite (market_rows_entries _ _ Hq) in Hrows.
Qed.

End markets.

(** ** Stage 3: the buyer source *)

(** C8. Without an uploaded file the buyer source answers any two keywords
    with the same table, the built-in one of exactly three records. *)
Theorem fetch_buyer_list_ignores_keyword `{W : World} (X Y : string) :
  fetch_buyer_list X = fetch_buyer_list Y
  ∧ fetch_buyer_list X = Return mock_buyers
  ∧ length (rows mock_buyers) = 3%nat
  ∧ buyer_stage X None = buyer_stage Y None.
Proof. repeat split. Qed.

(** ** Stage 4: the distributor lookup *)

Lemma find_trusted_distributors_table (country : cell) :
  find_trusted_distributors country = Return (distributor_table country).
Proof.
  unfold find_trusted_distributors, distributor_table, pd.from_list_and_scalar.
  destruct country as [[]|]; simpl; rewrite ?map_map; reflexivity.
Qed.

(** Over a table with a ["Country"] column, the comprehension makes one
    lookup per row whose country is no sentinel, in row order. *)
Lemma distributor_frames_market (cols : list string) (rs : list (list cell)) :
  "Country" ∈ cols →
  distributor_frames (map (mkSeries cols) rs)
  = Return (map distributor_table
              (filter lookup_country (map (λ r, pd.cell_at cols r "Country") rs))).
Proof.
  intros Hcol. induction rs as [|r rs IH]; [done|].
  cbn [map distributor_frames].
  rewrite !Series_getitem_label by done.
  rewrite bind_Return, filter_cons. unfold not_sentinel. fold lookup_country.
  case_bool_decide as Hc.
  - rewrite decide_True by exact Hc.
    by rewrite bind_Return, find_trusted_distributors_table, bind_Return, IH.
  - rewrite decide_False by (intros Hn; exact (Hn Hc)). apply IH.
Qed.

Lemma distributor_table_columns (c : cell) :
  columns (distributor_table c)
  = if no_hash c then ["Distributor"; "Country"; "Details"] else ["Distributor"; "Country"].
Proof. by destruct c as [[]|]. Qed.

Lemma distributor_columns_seen (calls : list cell) :
  pd.unique_from ["Details"; "Country"; "Distributor"]
    (flat_map (λ c, columns (distributor_table c)) calls) = [].
Proof.
  apply unique_from_seen. induction calls as [|c calls IH]; [constructor|].
  rewrite flat_map_cons, distributor_table_columns. apply Forall_app. split; [|done].
  destruct (no_hash c); repeat constructor; rewrite !elem_of_cons; auto.
Qed.

Lemma distributor_columns_rest (calls : list cell) :
  pd.unique_from ["Country"; "Distributor"]
    (flat_map (λ c, columns (distributor_table c)) calls)
  = if existsb no_hash calls then ["Details"] else [].
Proof.
  induction calls as [|c calls IH]; [done|].
  rewrite flat_map_cons, distributor_table_columns. cbn [existsb].
  destruct (no_hash c); simpl; [|exact IH].
  by rewrite distributor_columns_seen.
Qed.

Lemma distributor_columns (calls : list cell) :
  calls ≠ [] →
  pd.unique (flat_map columns (map distributor_table calls)) = combined_columns calls.
Proof.
  intros Hne. rewrite flat_map_concat_map, map_map, <-flat_map_concat_map.
  destruct calls as [|c calls]; [done|].
  unfold pd.unique, combined_columns.
  rewrite flat_map_cons, distributor_table_columns. cbn [existsb].
  destruct (no_hash c); simpl.
  - by rewrite distributor_columns_seen.
  - rewrite distributor_columns_rest. by destruct (existsb no_hash calls).
Qed.

(** The rows of a lookup's table under the columns of the combined table. *)
Lemma distributor_rows_widened (cols : list string) (c : cell) :
  cols = ["Distributor"; "Country"; "Details"]
  ∨ (cols = ["Distributor"; "Country"] ∧ no_hash c = false) →
  map (λ r, map (pd.cell_at (columns (distributor_table c)) r) cols)
      (rows (distributor_table c))
  = map (widen cols) (rows (distributor_table c)).
Proof.
  intros [->|[-> Hc]].
  - destruct c as [[]|]; try reflexivity;
      cbn [distributor_table rows columns]; rewrite !map_map; reflexivity.
  - destruct c as [[]|]; try done;
      cbn [distributor_table rows columns]; rewrite !map_map; reflexivity.
Qed.

(** The lookups' tables, stacked in order. *)
Lemma concat_distributor_tables (calls : list cell) :
  calls ≠ [] → pd.concat (map distributor_table calls) = Return (combined_table calls).
Proof.
  intros Hne.
  assert (pd.concat (map distributor_table calls)
          = Return (mkDataFrame (pd.unique (flat_map columns (map distributor_table calls)))
              (flat_map (λ df, map (λ r, map (pd.cell_at (columns df) r)
                                       (pd.unique (flat_map columns (map distributor_table calls))))
                                 (rows df))
                 (map distributor_table calls)))) as ->
    by (by destruct calls).
  rewrite distributor_columns by done.
  assert (combined_table calls
          = mkDataFrame (combined_columns calls)
              (flat_map (λ c, map (widen (combined_columns calls))
                                  (rows (distributor_table c))) calls)) as ->
    by (by destruct calls).
  do 2 f_equal.
  rewrite flat_map_concat_map, map_map, <-flat_map_concat_map.
  apply flat_map_same, Forall_forall. intros c Hc.
  apply distributor_rows_widened. unfold combined_columns.
  destruct (existsb no_hash calls) eqn:Hex; [by left|right]. split; [done|].
  destruct (no_hash c) eqn:Hn; [|done].
  assert (existsb no_hash calls = true) as Hex'; [|congruence].
  apply existsb_exists. exists c. split; [by apply list_elem_of_In|done].
Qed.

(** Without a failed lookup the combined table has its two columns, and the
    rows of the lookups' tables as they are. *)
Lemma combined_table_plain (calls : list cell) :
  existsb no_hash calls = false →
  combined_table calls
  = match calls with
    | [] => pd.empty
    | _ => mkDataFrame ["Distributor"; "Country"]
             (flat_map (λ c, rows (distributor_table c)) calls)
    end.
Proof.
  intros Hex. destruct calls as [|c0 calls0] eqn:Hcalls; [done|]. rewrite <-Hcalls in *.
  assert (combined_table calls
          = mkDataFrame (combined_columns calls)
              (flat_map (λ c, map (widen (combined_columns calls))
                                  (rows (distributor_table c))) calls)) as ->
    by (by subst calls).
  unfold combined_columns. rewrite Hex. f_equal.
  apply flat_map_same, Forall_forall. intros c _.
  rewrite <-(map_id (rows (distributor_table c))) at 2.
  apply map_ext. by intros [|? [|? [|? ?]]].
Qed.

Lemma distributors_df_of_tables (calls : list cell) :
  distributors_df_of (map distributor_table calls) = Return (combined_table calls).
Proof.
  destruct calls as [|c calls]; [done|].
  exact (concat_distributor_tables (c :: calls) ltac:(done)).
Qed.

Section distributors.
Context `{W : World}.

(** From the market table to the combined table. *)
Lemma market_pipeline (product_term : string) :
  ∃ market_df,
    suggest_markets product_term = Return market_df
    ∧ distributor_df_list market_df = Return (map distributor_table (lookups market_df))
    ∧ (df_list ← distributor_df_list market_df; distributors_df_of df_list)
      = Return (combined_table (lookups market_df)).
Proof.
  destruct (suggest_markets_columns product_term) as (market_df & Hrun & Hcols).
  exists market_df. split; [done|].
  assert (distributor_df_list market_df
          = Return (map distributor_table (lookups market_df))) as Hlist.
  { destruct market_df as [cols rs]. simpl in Hcols. subst cols.
    unfold distributor_df_list, pd.iterrows, lookups, column. cbn [columns rows].
    destruct rs as [|r rs]; [done|].
    apply distributor_frames_market. apply elem_of_cons. auto. }
  split; [done|]. by rewrite Hlist, bind_Return, distributors_df_of_tables.
Qed.

(** C4 (amended). On the market table of stage 2, the distributor lookup is
    made once per row whose country is neither ["Error"] nor ["Exception"], in
    row order (so a country on several rows is looked up several times), and
    the combined table holds the rows of these lookups' tables one lookup after
    the other (under the columns ["Distributor"] and ["Country"], and a third
    column ["Details"] once a lookup failed); with no lookup made it is the
    empty frame. *)
Theorem distributor_lookup_once_per_row (product_term : string) :
  ∃ market_df,
    suggest_markets product_term = Return market_df
    ∧ let calls := filter lookup_country (column market_df "Country") in
      Forall (λ c, find_trusted_distributors c = Return (distributor_table c)) calls
      ∧ distributor_df_list market_df = Return (map distributor_table calls)
      ∧ (df_list ← distributor_df_list market_df; distributors_df_of df_list)
        = Return (combined_table calls)
      ∧ (existsb no_hash calls = false →
         combined_table calls
         = match calls with
           | [] => pd.empty
           | _ => mkDataFrame ["Distributor"; "Country"]
                    (flat_map (λ c, rows (distributor_table c)) calls)
           end).
Proof.
  destruct (market_pipeline product_term) as (market_df & Hrun & Hlist & Hpipe).
  exists market_df. split; [done|]. cbv zeta. split_and!; [|done|done|].
  - apply Forall_forall. intros c _. apply find_trusted_distributors_table.
  - apply combined_table_plain.
Qed.

End distributors.

(** ** Stage 5: the distributor listing *)

Lemma plain_keys (cs : list cell) :
  Forall name_or_missing cs →
  pd.first_unhashable cs = None ∧ forallb pd.plain_key cs = true.
Proof.
  unfold pd.first_unhashable.
  induction 1 as [|c cs Hc _ [IH1 IH2]]; [done|].
  destruct c as [[]|]; try done; simpl; by rewrite ?IH2.
Qed.

Section listing.
Context `{W : World}.

Lemma dist_sections_groups (df : DataFrame) :
  "Country" ∈ columns df → "Distributor" ∈ columns df →
  Forall name_or_missing (column df "Country") →
  dist_sections df
  = Return (join (LF +:+ LF)
              (map (render_group df)
                 (merge_sort String.le (pd.unique (pd.text_keys (column df "Country")))))).
Proof.
  intros HC HD [Hhash Hplain]%plain_keys. unfold dist_sections, pd.groupby, pd.getitem.
  rewrite bool_decide_eq_true_2 by done. rewrite bind_Return.
  fold (column df "Country"). rewrite Hhash, Hplain.
  change (mret ?x ≫= ?f) with (f x). cbv beta.
  erewrite (mapM_Return _ (λ g, match g.1 with
                                | Text k => render_group df k
                                | _ => ""
                                end)).
  - simpl. by rewrite <-list_fmap_compose.
  - intros [k g] [k' [-> _]]%list_elem_of_fmap. simpl.
    unfold dist_section, pd.getitem. simpl.
    rewrite bool_decide_eq_true_2 by done.
    by rewrite bind_Return, join_concat.
Qed.

(** C3 (amended). For a combined distributor table (one with the columns
    ["Country"] and ["Distributor"], whose countries are names or missing) the
    listing is grouped by country, each group a heading followed by one bullet
    per distributor of that country in table order, and the groups appear in
    ascending order of the country names, each country of the table once. *)
Theorem dist_sections_by_country (df : DataFrame) :
  "Country" ∈ columns df → "Distributor" ∈ columns df →
  Forall name_or_missing (column df "Country") →
  ∃ countries,
    dist_sections df = Return (join (LF +:+ LF) (map (render_group df) countries))
    ∧ StronglySorted String.le countries
    ∧ NoDup countries
    ∧ ∀ c, c ∈ countries ↔ Text c ∈ column df "Country".
Proof.
  intros HC HD Hkeys.
  exists (merge_sort String.le (pd.unique (pd.text_keys (column df "Country")))).
  split_and!.
  - by apply dist_sections_groups.
  - apply StronglySorted_merge_sort; apply _.
  - rewrite merge_sort_Permutation. apply NoDup_unique_from.
  - intros c. rewrite merge_sort_Permutation, elem_of_unique.
    apply elem_of_text_keys.
Qed.

End listing.

(** ** Stage 5: the report composer *)

(** A header is shown by the piece of the template that holds it. *)
Ltac shown_in piece :=
  apply (is_substring_concat _ piece);
  [ apply contains_spec; vm_compute; reflexivity
  | apply list_elem_of_In; simpl; auto 40 ].

(** The template, filled in, is the text of the f-string. *)
Lemma report_text_template (title description headings markets buyers dists : string) :
  String.concat "" (report_template title description headings markets buyers dists)
  = report_text title description headings markets buyers dists.
Proof. reflexivity. Qed.

Lemma report_text_headers (title description headings markets buyers dists : string) :
  Forall (λ h, is_substring h
                 (report_text title description headings markets buyers dists))
         section_headers.
Proof.
  rewrite <-report_text_template. unfold section_headers, report_template.
  repeat (apply Forall_cons; split); [..|apply Forall_nil_2].
  - shown_in "        ## Export Opportunity Report".
  - shown_in "        **Brand Title:** ".
  - shown_in "        **Meta Description:** ".
  - shown_in "        ### Sample Product Headings".
  - shown_in "        ### Top Markets".
  - shown_in "        ### Buyer Leads".
  - shown_in "        ### Trusted Distributors by Country".
Qed.

Section composer.
Context `{W : World}.

(** Grouping a table without a ["Country"] column raises, and the composer
    answers with the failure message: so it does for [pd.DataFrame()]. *)
Lemma create_report_without_country (brand_data : gmap string value)
    (market_data buyers dists : DataFrame) :
  "Country" ∉ columns dists →
  create_report brand_data market_data buyers dists = Return failure_message.
Proof.
  intros Hc. unfold create_report, dist_sections, pd.groupby, pd.getitem.
  by rewrite bool_decide_eq_false_2.
Qed.

Lemma dist_sections_no_rows (dists : DataFrame) :
  "Country" ∈ columns dists → rows dists = [] → dist_sections dists = Return "".
Proof.
  intros Hc Hr. unfold dist_sections, pd.groupby, pd.getitem.
  rewrite bool_decide_eq_true_2 by done. by rewrite Hr.
Qed.

(** An exception of the assembly is answered with its message. *)
Lemma create_report_failure (brand_data : gmap string value)
    (market_data buyers dists : DataFrame) (e : exn) :
  assembly_raises market_data buyers dists e →
  create_report brand_data market_data buyers dists
  = Return ("Report generation failed: " +:+ str_exn e).
Proof.
  unfold create_report.
  intros [e' Hd|listing e' Hd Hm|listing markets_md e' Hd Hm Hb]; rewrite Hd; [done|..];
    rewrite bind_Return, Hm; [done|]. by rewrite bind_Return, Hb.
Qed.

(** An assembly that does not raise gives the text of the f-string around
    the fields. *)
Lemma create_report_filled (brand_data : gmap string value)
    (market_data buyers dists : DataFrame) (listing markets_md buyers_md : string) :
  dist_sections dists = Return listing →
  to_markdown market_data = Return markets_md →
  to_markdown buyers = Return buyers_md →
  create_report brand_data market_data buyers dists
  = Return (report_text
              (format_value (default (VStr "N/A") (brand_data !! "Page Title")))
              (format_value (default (VStr "N/A") (brand_data !! "Meta Description")))
              (join_value ", " (default (VList []) (brand_data !! "Product Headings")))
              markets_md buyers_md listing).
Proof.
  intros Hd Hm Hb. unfold create_report.
  by rewrite Hd, bind_Return, Hm, bind_Return, Hb, bind_Return, report_text_template.
Qed.

(** C2 (amended). The report composer never raises: whatever it is given, it
    returns a text, and when the assembly raises (grouping the distributors,
    rendering the markets or rendering the buyers), the text is
    [Report generation failed: ] followed by the message of the exception.
    Given an empty summary, market and buyer tables that render, and a
    distributor table with a ["Country"] column and no row, the text is the
    report with every fixed section header, the brand title and the meta
    description reading [N/A], the headings and the distributor listing empty,
    and the renderings of the two tables under their headers. *)
Theorem create_report_never_raises :
  (∀ brand_data market_data buyers dists,
     (∃ report, create_report brand_data market_data buyers dists = Return report)
     ∧ ∀ e, assembly_raises market_data buyers dists e →
         create_report brand_data market_data buyers dists
         = Return ("Report generation failed: " +:+ str_exn e))
  ∧ (∀ market_data buyers dists markets_md buyers_md,
       to_markdown market_data = Return markets_md →
       to_markdown buyers = Return buyers_md →
       "Country" ∈ columns dists → rows dists = [] →
       create_report ∅ market_data buyers dists
       = Return (report_text "N/A" "N/A" "" markets_md buyers_md "")
       ∧ Forall (λ h, is_substring h (report_text "N/A" "N/A" "" markets_md buyers_md ""))
                section_headers).
Proof.
  split.
  - intros. split; [unfold create_report; apply try_except_returns|].
    apply create_report_failure.
  - intros market_data buyers dists markets_md buyers_md Hm Hb Hc Hr.
    split; [|apply report_text_headers].
    by rewrite (create_report_filled _ _ _ _ "" markets_md buyers_md)
      by auto using dist_sections_no_rows.
Qed.

End composer.

(** ** The download link *)

Section base64.
Import Base64 RFC4648.

Lemma ord_range (a : ascii) : 0 ≤ ord a < 256.
Proof. unfold ord. pose proof (N_ascii_bounded a). lia. Qed.

Lemma byte_ord (a : ascii) : byte (ord a) = a.
Proof. unfold byte, ord. rewrite N2Z.id. apply ascii_N_embedding. Qed.

(** Each of the 64 digits of the encoder is the character RFC 4648 gives its
    6-bit group, and none is the padding character or a double quote. *)
Lemma digits_checked :
  Forall (λ n, sextet (digit n) = Some n ∧ digit n ≠ "="%char ∧ digit n ≠ "034"%char
               ∧ base64_char (digit n))
         (seqZ 0 64).
Proof. apply (bool_decide_unpack _). vm_compute. exact I. Qed.

Lemma digit_facts (n : Z) :
  0 ≤ n < 64 →
  sextet (digit n) = Some n ∧ digit n ≠ "="%char ∧ digit n ≠ "034"%char
  ∧ base64_char (digit n).
Proof.
  intros Hn. pose proof digits_checked as Hall.
  rewrite Forall_forall in Hall. apply Hall, elem_of_seqZ. lia.
Qed.

(** Induction on a text by its length, for functions that consume several
    characters a step. *)
Lemma string_length_ind (P : string → Prop) :
  (∀ s, (∀ t, (String.length t < String.length s)%nat → P t) → P s) → ∀ s, P s.
Proof.
  intros Hstep s. remember (String.length s) as n eqn:Hn.
  revert s Hn. induction (lt_wf n) as [n _ IH]. intros s ->.
  apply Hstep. intros t Ht. by apply (IH (String.length t)).
Qed.

Ltac sextet_of n :=
  let H := fresh "Hrange" in
  assert (0 ≤ n < 64) as H by (Z.div_mod_to_equations; lia);
  destruct (digit_facts n H) as (-> & ? & _); clear H.

Ltac byte_back x :=
  match goal with
  | |- context [byte ?e] =>
      replace e with (ord x) by (Z.div_mod_to_equations; lia); rewrite (byte_ord x)
  end.

Ltac not_a_quote n :=
  let H := fresh "Hrange" in
  assert (0 ≤ n < 64) as H by (Z.div_mod_to_equations; lia);
  pose proof (proj1 (proj2 (proj2 (digit_facts n H)))); clear H.

(** Decoding, as RFC 4648 defines it, undoes the encoder on every byte
    string. *)
Lemma decode_b64encode (s : string) : decode (b64encode s) = Some s.
Proof.
  induction s as [s IH] using string_length_ind.
  destruct s as [|a [|b [|c rest]]]; [done|..];
    pose proof (ord_range a) as Ha;
    try pose proof (ord_range b) as Hb; try pose proof (ord_range c) as Hc;
    cbn [b64encode decode].
  - sextet_of (ord a / 4). sextet_of (ord a mod 4 * 16).
    cbn -[digit byte Z.mul Z.add Z.div Z.modulo].
    repeat (case_bool_decide; [|done]).
    by byte_back a.
  - sextet_of (ord a / 4). sextet_of (ord a mod 4 * 16 + ord b / 16).
    sextet_of (ord b mod 16 * 4).
    cbn -[digit byte Z.mul Z.add Z.div Z.modulo].
    repeat (case_bool_decide; [|done]). case_bool_decide; [done|].
    byte_back a. by byte_back b.
  - sextet_of (ord a / 4). sextet_of (ord a mod 4 * 16 + ord b / 16).
    sextet_of (ord b mod 16 * 4 + ord c / 64). sextet_of (ord c mod 64).
    cbn -[digit byte Z.mul Z.add Z.div Z.modulo]. case_bool_decide; [done|].
    rewrite IH by (cbn; lia). cbn -[digit byte Z.mul Z.add Z.div Z.modulo].
    byte_back a. byte_back b. by byte_back c.
Qed.

(** An encoding holds no double quote: reading up to the first one reads all
    of it. *)
Lemma take_until_b64encode (s rest : string) :
  take_until "034"%char (b64encode s +:+ String "034"%char rest) = b64encode s.
Proof.
  induction s as [s IH] using string_length_ind.
  destruct s as [|a [|b [|c s']]]; [done|..];
    pose proof (ord_range a) as Ha;
    try pose proof (ord_range b) as Hb; try pose proof (ord_range c) as Hc;
    cbn -[digit ord Z.mul Z.add Z.div Z.modulo]; rewrite !app_String;
    cbn -[digit ord Z.mul Z.add Z.div Z.modulo].
  - not_a_quote (ord a / 4). not_a_quote (ord a mod 4 * 16).
    repeat (case_bool_decide; [done|]). done.
  - not_a_quote (ord a / 4). not_a_quote (ord a mod 4 * 16 + ord b / 16).
    not_a_quote (ord b mod 16 * 4).
    repeat (case_bool_decide; [done|]). done.
  - not_a_quote (ord a / 4). not_a_quote (ord a mod 4 * 16 + ord b / 16).
    not_a_quote (ord b mod 16 * 4 + ord c / 64). not_a_quote (ord c mod 64).
    repeat (case_bool_decide; [done|]). by rewrite IH by (cbn; lia).
Qed.

Lemma strip_prefix_app (p s : string) : strip_prefix p (p +:+ s) = Some s.
Proof.
  induction p as [|a p IH]; [by destruct s|].
  rewrite app_String. cbn. by case_bool_decide.
Qed.

Lemma link_payload_link_around (bytes download_filename link_text : string) :
  link_payload (link_around (b64encode bytes) download_filename link_text)
  = Some (b64encode bytes).
Proof.
  unfold link_payload, link_around.
  rewrite <-!(app_assoc_r "<a href=" quote), <-(app_assoc_r ("<a href=" +:+ quote)).
  rewrite strip_prefix_app.
  cbn [fmap option_fmap option_map]. f_equal. apply take_until_b64encode.
Qed.

Lemma digit_base64_char (n : Z) : 0 ≤ n < 64 → base64_char (digit n).
Proof. intros Hn. by destruct (digit_facts n Hn) as (_ & _ & _ & ?). Qed.

Lemma b64encode_shape (bs : string) :
  Forall base64_char (list_ascii_of_string (b64encode bs))
  ∧ String.length (b64encode bs) = (4 * ((String.length bs + 2) / 3))%nat.
Proof.
  assert (base64_char "="%char) as Hpad by (apply (bool_decide_unpack _); vm_compute; exact I).
  induction bs as [bs IH] using string_length_ind.
  destruct bs as [|a [|b [|c rest]]]; [by split; [constructor|]|..];
    pose proof (ord_range a) as Ha;
    try pose proof (ord_range b) as Hb; try pose proof (ord_range c) as Hc;
    cbn [b64encode list_ascii_of_string String.length].
  - split; [|done].
    repeat (apply Forall_cons; split); [..|constructor];
      first [exact Hpad | apply digit_base64_char; Z.div_mod_to_equations; lia].
  - split; [|done].
    repeat (apply Forall_cons; split); [..|constructor];
      first [exact Hpad | apply digit_base64_char; Z.div_mod_to_equations; lia].
  - destruct (IH rest) as [IHc IHl]; [cbn; lia|]. split.
    + repeat (apply Forall_cons; split); [..|exact IHc];
        apply digit_base64_char; Z.div_mod_to_equations; lia.
    + rewrite IHl.
      replace (S (S (S (String.length rest))) + 2)%nat
        with (String.length rest + 2 + 1 * 3)%nat by lia.
      rewrite Nat.div_add by done. lia.
Qed.

End base64.

Lemma download_link_encoded `{W : World}
    (object_to_download download_filename link_text : string) :
  encode_error object_to_download = None →
  download_link object_to_download download_filename link_text
  = Return (link_around (Base64.b64encode object_to_download) download_filename link_text).
Proof.
  intros Henc. unfold download_link, str_encode. rewrite Henc.
  unfold link_around, link_prefix. simpl. by rewrite !app_assoc_r.
Qed.

(** C9. For every report text the encoder accepts, [download_link] returns
    the anchor [<a href="data:file/txt;base64,PAYLOAD" download="NAME">TEXT</a>],
    and the payload, read off that link up to the closing quote and decoded
    as RFC 4648 defines Base64 with the standard alphabet, is exactly the text;
    for a text the encoder refuses it returns, and does not raise, the message
    [Error generating download link: ...]. *)
Theorem download_link_round_trip `{W : World}
    (object_to_download download_filename link_text : string) :
  match encode_error object_to_download with
  | None =>
      ∃ link payload,
        download_link object_to_download download_filename link_text = Return link
        ∧ link = "<a href=" +:+ String "034"%char "" +:+ "data:file/txt;base64,"
                 +:+ payload +:+ String "034"%char ""
                 +:+ " download=" +:+ String "034"%char "" +:+ download_filename
                 +:+ String "034"%char "" +:+ ">" +:+ link_text +:+ "</a>"
        ∧ link_payload link = Some payload
        ∧ RFC4648.decode payload = Some object_to_download
  | Some e =>
      download_link object_to_download download_filename link_text
      = Return ("Error generating download link: " +:+ str_exn e)
  end.
Proof.
  destruct (encode_error object_to_download) as [e|] eqn:Henc.
  - unfold download_link, str_encode. by rewrite Henc.
  - exists (link_around (Base64.b64encode object_to_download) download_filename link_text),
      (Base64.b64encode object_to_download).
    split_and!; [by apply download_link_encoded|reflexivity
                |apply link_payload_link_around|apply decode_b64encode].
Qed.

(** ** The page script *)

Section page.
Context `{W : World}.

Lemma script_bind_eval {A B} (r : result A) (a : A) (k : A → script B)
    (page : list st_call) :
  r = Return a → (eval r ≫= k) page = k a page.
Proof. by intros ->. Qed.

Lemma script_bind_st {B} (c : st_call) (k : unit → script B) (page : list st_call) :
  (st c ≫= k) page = k tt (page ++ [c]).
Proof. reflexivity. Qed.

(** The run of the workflow after a successful scrape, when no stage raises
    past its boundary. *)
Lemma workflow_run (brand_url product_keywords : string) (buyer_df : DataFrame)
    (site_info : gmap string value) (market_df : DataFrame) (df_list : list DataFrame)
    (distributors_df : DataFrame) (report_md dl_link : string) (page : list st_call) :
  scrape_site brand_url = Return site_info →
  site_info !! "error" = None →
  suggest_markets (or_else product_keywords "Mobility equipment") = Return market_df →
  distributor_df_list market_df = Return df_list →
  distributors_df_of df_list = Return distributors_df →
  create_report site_info market_df buyer_df distributors_df = Return report_md →
  download_link report_md "export_report.md" "📅 Download Full Report" = Return dl_link →
  workflow brand_url product_keywords buyer_df page
  = (page ++ workflow_page site_info market_df buyer_df distributors_df report_md dl_link,
     Return tt).
Proof.
  intros Hs Hgate Hm Hl Hd Hr Hdl. unfold workflow.
  rewrite (script_bind_eval _ _ _ _ Hs), Hgate.
  rewrite !script_bind_st, (script_bind_eval _ _ _ _ Hm).
  rewrite !script_bind_st, (script_bind_eval _ _ _ _ Hl), (script_bind_eval _ _ _ _ Hd).
  rewrite !script_bind_st, (script_bind_eval _ _ _ _ Hr).
  rewrite !script_bind_st, (script_bind_eval _ _ _ _ Hdl).
  rewrite !script_bind_st. unfold st, workflow_page.
  by rewrite <-!(assoc_L (++)).
Qed.

(** The gate of the workflow: a failed fetch shows the error and nothing else,
    a successful one goes on to the brand summary. *)
Lemma workflow_gate (url product_keywords : string) (buyer_df : DataFrame)
    (page : list st_call) :
  match fetch_page url with
  | Raise e =>
      workflow url product_keywords buyer_df page
      = (page ++ [st_error ("Unable to scrape site: " +:+ str_exn e)], Return tt)
  | Return _ =>
      ∃ site_info rest outcome,
        scrape_site url = Return site_info
        ∧ workflow url product_keywords buyer_df page
          = (page ++ st_subheader "🔎 Brand Summary" :: st_json site_info :: rest,
             outcome)
  end.
Proof.
  unfold workflow. rewrite scrape_site_cases.
  destruct (fetch_page url) as [soup|e].
  - match goal with |- context [Return ?m] => remember m as site_info eqn:Hinfo end.
    assert (site_info !! "error" = None) as Hgate by (subst; by simplify_map_eq).
    clear Hinfo. exists site_info.
    rewrite (script_bind_eval _ _ _ _ eq_refl), Hgate.
    unfold mbind, script_mbind, script_bind, st, eval.
    repeat case_match; simplify_eq;
      eexists _, _; (split; [reflexivity|]);
      rewrite <-?(assoc_L (++)); reflexivity.
  - rewrite (script_bind_eval _ _ _ _ eq_refl). by rewrite lookup_singleton_eq.
Qed.

(** C10. The scraper always returns a record; after a successful fetch its
    keys are exactly ["Page Title"], ["Meta Description"] and
    ["Product Headings"], after a failed one exactly ["error"]; so the record
    has the key ["error"] if and only if the fetch failed, and the workflow's
    test of that key shows the error alone after a failed fetch and goes on to
    the brand summary after a successful one. *)
Theorem scrape_site_error_key_discriminates (url : string) :
  ∃ site_info,
    scrape_site url = Return site_info
    ∧ match fetch_page url with
      | Return _ =>
          dom site_info
          = ({[ "Page Title"; "Meta Description"; "Product Headings" ]} : gset string)
      | Raise _ => dom site_info = ({[ "error" ]} : gset string)
      end
    ∧ (is_Some (site_info !! "error") ↔ ∃ e, fetch_page url = Raise e)
    ∧ ∀ product_keywords buyer_df page,
        match fetch_page url with
        | Raise e =>
            workflow url product_keywords buyer_df page
            = (page ++ [st_error ("Unable to scrape site: " +:+ str_exn e)], Return tt)
        | Return _ =>
            ∃ rest outcome,
              workflow url product_keywords buyer_df page
              = (page ++ st_subheader "🔎 Brand Summary" :: st_json site_info :: rest,
                 outcome)
        end.
Proof.
  destruct (scrape_site_keys url) as (site_info & Hrun & Hdom & Hkey).
  exists site_info. split_and!; [done..|].
  intros product_keywords buyer_df page.
  pose proof (workflow_gate url product_keywords buyer_df page) as Hgate.
  destruct (fetch_page url) as [soup|e]; [|done].
  destruct Hgate as (site_info' & rest & outcome & Hrun' & Hwf).
  rewrite Hrun in Hrun'. simplify_eq. eauto.
Qed.

Lemma download_link_returns (object_to_download download_filename link_text : string) :
  ∃ dl_link,
    download_link object_to_download download_filename link_text = Return dl_link.
Proof. unfold download_link. apply try_except_returns. Qed.

(** A failed market query gives the one-row error table. *)
Lemma suggest_markets_failed_query (product_term : string) (e : exn) :
  query_market product_term = Raise e →
  suggest_markets product_term = Return (market_error_table e).
Proof.
  intros Hq. rewrite suggest_markets_cases. unfold market_rows. by rewrite Hq.
Qed.

(** C1. In the end-to-end scenario (a page titled [Acme Mobility] without
    meta description and with three qualifying headings, no keyword, no
    upload, a failing market query) the page shows the scraped summary with
    the description fallback and the three headings, the one-row error table,
    the three built-in buyers and an empty distributor table; but the report it
    shows, and links for download, is the composer's failure message
    [Report generation failed: 'Country'], not a report with these sections. *)
Theorem scenario_report_is_failure_message (url : string) (soup : Soup)
    (h1 h2 h3 : string) (e : exn) :
  url ≠ "" →
  fetch_page url = Return soup →
  tag_text <$> soup_title soup = Some "Acme Mobility" →
  find_meta_description soup = None →
  filter (λ t, (5 < len t)%nat) (map get_text_strip (find_all_h1_h2_h3 soup))
  = [h1; h2; h3] →
  query_market "Mobility equipment" = Raise e →
  ∃ dl_link,
    download_link failure_message "export_report.md" "📅 Download Full Report"
    = Return dl_link
    ∧ render url "" None
      = (page_head
         ++ workflow_page
              {[ "Page Title" := VStr "Acme Mobility";
                 "Meta Description" := VStr "No description found";
                 "Product Headings" := VList [h1; h2; h3] ]}
              (mkDataFrame ["Country"; "Demand Score"] [[Text "Error"; Text (str_exn e)]])
              mock_buyers pd.empty failure_message dl_link
         ++ page_foot,
         Return tt).
Proof.
  intros Hurl Hpage Htitle Hmeta Hheads Hquery.
  destruct (download_link_returns failure_message "export_report.md"
              "📅 Download Full Report") as [dl_link Hdl].
  exists dl_link. split; [done|].
  unfold render, app. rewrite !script_bind_st.
  change (buyer_stage "" None) with (eval (Return mock_buyers)).
  rewrite (script_bind_eval _ _ _ _ eq_refl).
  destruct url as [|a url']; [done|].
  unfold mbind at 1, script_mbind, script_bind.
  erewrite workflow_run; [reflexivity|..|exact Hdl].
  - rewrite scrape_site_cases, Hpage, Hmeta.
    pose proof (map_filter_comm get_text_strip (λ t, (5 < len t)%nat)
                  (find_all_h1_h2_h3 soup)) as Hcomm.
    simpl in Hcomm. rewrite Hcomm, Hheads.
    destruct (soup_title soup) as [t|]; simplify_eq/=. by rewrite Htitle.
  - by simplify_map_eq.
  - by apply suggest_markets_failed_query.
  - reflexivity.
  - reflexivity.
  - apply create_report_without_country, not_elem_of_nil.
Qed.

Lemma create_report_returns (brand_data : gmap string value)
    (market_data buyers dists : DataFrame) :
  ∃ report, create_report brand_data market_data buyers dists = Return report.
Proof. unfold create_report. apply try_except_returns. Qed.

Lemma buyer_stage_run (product_keywords : string) (uploaded_file : option string) :
  ∃ shown buyer_df,
    buyer_part uploaded_file shown buyer_df
    ∧ ∀ page, buyer_stage product_keywords uploaded_file page
              = (page ++ shown, Return buyer_df).
Proof.
  unfold buyer_stage. destruct uploaded_file as [f|].
  - destruct (read_csv f) as [buyer_df|e] eqn:Hcsv; eexists _, _.
    + split; [by eapply upload_parsed|]. done.
    + split; [by eapply upload_refused|]. done.
  - exists [], mock_buyers. split; [by constructor|].
    intros page. unfold eval. by rewrite app_nil_r.
Qed.

Lemma workflow_body (brand_url product_keywords : string) (buyer_df : DataFrame) :
  brand_url ≠ "" →
  ∃ body,
    page_body brand_url product_keywords buyer_df body
    ∧ ∀ page, workflow brand_url product_keywords buyer_df page
              = (page ++ body, Return tt).
Proof.
  intros Hurl.
  destruct (fetch_page brand_url) as [soup|e] eqn:Hfetch.
  - destruct (scrape_site_keys brand_url) as (site_info & Hscrape & _ & Hkey).
    assert (site_info !! "error" = None) as Hgate.
    { destruct (site_info !! "error") eqn:Herr; [|done].
      destruct (proj1 Hkey (mk_is_Some _ _ eq_refl)) as [e He]. congruence. }
    destruct (market_pipeline (or_else product_keywords "Mobility equipment"))
      as (market_df & Hm & Hlist & Hpipe).
    destruct (create_report_returns site_info market_df buyer_df
                (combined_table (lookups market_df))) as [report_md Hreport].
    destruct (download_link_returns report_md "export_report.md"
                "📅 Download Full Report") as [dl_link Hdl].
    eexists. split; [by eapply report_shown|].
    intros page. eapply workflow_run; eauto using distributors_df_of_tables.
  - eexists. split; [by eapply scrape_failed|].
    intros page. pose proof (workflow_gate brand_url product_keywords buyer_df page) as Hg.
    by rewrite Hfetch in Hg.
Qed.

(** X1. The page script never stops at an uncaught exception.  The page it
    renders is the title and the upload subheader, then what the buyer stage
    shows, then nothing (no URL), or the scrape error alone (failed fetch), or
    the twelve calls of a full run (summary, market table, buyer table,
    distributor table, report, link, success note), then the footer. *)
Theorem page_script_shape (brand_url product_keywords : string)
    (uploaded_file : option string) :
  ∃ shown buyer_df body,
    render brand_url product_keywords uploaded_file
    = (page_head ++ shown ++ body ++ page_foot, Return tt)
    ∧ buyer_part uploaded_file shown buyer_df
    ∧ page_body brand_url product_keywords buyer_df body.
Proof.
  destruct (buyer_stage_run product_keywords uploaded_file)
    as (shown & buyer_df & Hpart & Hbuyer).
  assert (∃ body, page_body brand_url product_keywords buyer_df body
          ∧ ∀ page, (match brand_url with
                     | EmptyString => mret tt
                     | _ => workflow brand_url product_keywords buyer_df
                     end) page = (page ++ body, Return tt)) as (body & Hbody & Hrun).
  { destruct brand_url as [|a u] eqn:Hu.
    - exists []. split; [by constructor|]. intros page. by rewrite app_nil_r.
    - rewrite <-Hu. apply workflow_body. by rewrite Hu. }
  exists shown, buyer_df, body. split; [|done].
  unfold render, app. rewrite !script_bind_st.
  unfold mbind at 1, script_mbind, script_bind at 1. rewrite Hbuyer.
  unfold mbind at 1, script_bind at 1. rewrite Hrun.
  rewrite !script_bind_st. unfold st, page_head, page_foot.
  by rewrite <-!(assoc_L (++)).
Qed.

End page.

(** * Further properties *)

(** ** The built-in distributor table *)

Lemma trusted_get_unknown (country : cell) (d : list string) :
  country ∉ known_countries → trusted_get country d = d.
Proof.
  unfold known_countries. rewrite !not_elem_of_cons. intros (H1 & H2 & H3 & _).
  destruct country as [[| | | |c| |]|]; try done. simpl. unfold trusted.
  rewrite lookup_insert_ne by congruence. rewrite lookup_insert_ne by congruence.
  rewrite lookup_singleton_ne by congruence. done.
Qed.

Lemma trusted_get_known (country : cell) (d : list string) :
  country ∈ known_countries → length (trusted_get country d) = 2%nat.
Proof.
  unfold known_countries. rewrite !elem_of_cons, elem_of_nil.
  intros [->|[->|[->|[]]]]; reflexivity.
Qed.

Lemma trusted_get_nonempty (country : cell) :
  trusted_get country ["No trusted partners listed"] ≠ [].
Proof.
  destruct (decide (country ∈ known_countries)) as [Hk|Hk].
  - intros Hnil. pose proof (trusted_get_known country ["No trusted partners listed"] Hk) as Hl.
    by rewrite Hnil in Hl.
  - by rewrite trusted_get_unknown.
Qed.

Lemma distributor_table_hashable (c : cell) :
  no_hash c = false →
  distributor_table c
  = mkDataFrame ["Distributor"; "Country"]
      (map (λ name, [Text name; c]) (trusted_get c ["No trusted partners listed"])).
Proof. by destruct c as [[]|]. Qed.

(** X5. The distributor lookup never raises.  Asked for a country that has
    no hash (a list or a dict), it answers with the one-row table of the three
    columns ["Distributor"], ["Country"] and ["Details"], whose row reads
    ["Error"], the country, and the message of the hashing error.  Asked for any
    other country, text or not, it answers with a table of the columns
    ["Distributor"] and ["Country"] that has at least one row, every row pairing
    a distributor name with the country as it was given; for a country the
    built-in table does not know this is the single row
    [No trusted partners listed]. *)
Theorem find_trusted_distributors_rows (country : cell) :
  ∃ df,
    find_trusted_distributors country = Return df
    ∧ match country with
      | Val (JArr _) =>
          df = mkDataFrame ["Distributor"; "Country"; "Details"]
                 [[Text "Error"; country;
                   Text ("unhashable type: " +:+ String "039"%char "list"
                         +:+ String "039"%char "")]]
      | Val (JObj _) =>
          df = mkDataFrame ["Distributor"; "Country"; "Details"]
                 [[Text "Error"; country;
                   Text ("unhashable type: " +:+ String "039"%char "dict"
                         +:+ String "039"%char "")]]
      | _ =>
          columns df = ["Distributor"; "Country"]
          ∧ Forall (λ r, ∃ name, r = [Text name; country]) (rows df)
          ∧ rows df ≠ []
          ∧ (country ∉ known_countries →
             rows df = [[Text "No trusted partners listed"; country]])
      end.
Proof.
  rewrite find_trusted_distributors_table. eexists. split; [reflexivity|].
  assert (no_hash country = false →
          columns (distributor_table country) = ["Distributor"; "Country"]
          ∧ Forall (λ r, ∃ name, r = [Text name; country]) (rows (distributor_table country))
          ∧ rows (distributor_table country) ≠ []
          ∧ (country ∉ known_countries →
             rows (distributor_table country)
             = [[Text "No trusted partners listed"; country]])) as Hplain.
  { intros ->%distributor_table_hashable. cbn [rows columns]. split_and!; [done| | |].
    - induction (trusted_get _ _); simpl; constructor; eauto.
    - pose proof (trusted_get_nonempty country) as Hne.
      by destruct (trusted_get country _).
    - intros Hk. by rewrite trusted_get_unknown. }
  destruct country as [[]|]; try (by apply Hplain); reflexivity.
Qed.

(** ** The combined table, row by row *)

Lemma combined_table_rows (calls : list cell) :
  rows (combined_table calls)
  = flat_map (λ c, map (widen (combined_columns calls)) (rows (distributor_table c))) calls.
Proof. by destruct calls. Qed.

Lemma combined_table_columns (calls : list cell) :
  calls ≠ [] → columns (combined_table calls) = combined_columns calls.
Proof. by destruct calls. Qed.

(** The country of a lookup's row, read in the combined table. *)
Lemma widened_row_country (calls : list cell) (c : cell) (r : list cell) :
  r ∈ rows (distributor_table c) →
  pd.cell_at (combined_columns calls) (widen (combined_columns calls) r) "Country" = c.
Proof.
  unfold combined_columns. intros Hr.
  destruct (no_hash c) eqn:Hc.
  - destruct c as [[]|]; try done;
      apply list_elem_of_singleton in Hr as ->; by destruct (existsb no_hash calls).
  - rewrite distributor_table_hashable in Hr by done. cbn [rows] in Hr.
    apply list_elem_of_fmap in Hr as (name & -> & _).
    by destruct (existsb no_hash calls).
Qed.

Lemma distributor_table_nonempty (c : cell) : rows (distributor_table c) ≠ [].
Proof.
  destruct (no_hash c) eqn:Hc.
  - by destruct c as [[]|].
  - rewrite distributor_table_hashable by done. cbn [rows].
    pose proof (trusted_get_nonempty c). by destruct (trusted_get c _).
Qed.

Lemma combined_table_countries_of (calls : list cell) :
  Forall (λ r, country_of (combined_table calls) r ∈ calls) (rows (combined_table calls))
  ∧ ∀ c, c ∈ calls →
      ∃ r, r ∈ rows (combined_table calls) ∧ country_of (combined_table calls) r = c.
Proof.
  destruct (decide (calls = [])) as [->|Hne]; [split; [constructor|by intros c ?%elem_of_nil]|].
  unfold country_of. rewrite combined_table_columns, combined_table_rows by done. split.
  - apply Forall_forall. intros r Hr.
    apply list_elem_of_In, in_flat_map in Hr as (c & Hc%list_elem_of_In & Hr%list_elem_of_In).
    apply list_elem_of_fmap in Hr as (r' & -> & Hr').
    by rewrite (widened_row_country calls c r').
  - intros c Hc.
    destruct (rows (distributor_table c)) as [|r' rest] eqn:Hrows;
      [by apply distributor_table_nonempty in Hrows|].
    exists (widen (combined_columns calls) r'). split.
    + apply list_elem_of_In, in_flat_map. exists c. split; [by apply list_elem_of_In|].
      apply list_elem_of_In, list_elem_of_fmap. exists r'. split; [done|].
      rewrite Hrows. apply elem_of_cons. auto.
    + apply widened_row_country. rewrite Hrows. apply elem_of_cons. auto.
Qed.

(** The rows of a combined table without a failed lookup. *)
Lemma elem_of_combined_rows (calls : list cell) (r : list cell) :
  existsb no_hash calls = false →
  r ∈ rows (combined_table calls)
  ↔ ∃ c name, c ∈ calls ∧ name ∈ trusted_get c ["No trusted partners listed"]
               ∧ r = [Text name; c].
Proof.
  intros Hex.
  assert (∀ c, c ∈ calls → no_hash c = false) as Hhash.
  { intros c Hc. destruct (no_hash c) eqn:Hn; [|done].
    assert (existsb no_hash calls = true) as Hex'; [|congruence].
    apply existsb_exists. exists c. split; [by apply list_elem_of_In|done]. }
  rewrite (combined_table_plain calls Hex).
  assert (rows (match calls with
                | [] => pd.empty
                | _ => mkDataFrame ["Distributor"; "Country"]
                         (flat_map (λ c, rows (distributor_table c)) calls)
                end)
          = flat_map (λ c, rows (distributor_table c)) calls) as ->
    by (by destruct calls).
  rewrite list_elem_of_In, in_flat_map. split.
  - intros (c & Hc%list_elem_of_In & Hr%list_elem_of_In).
    rewrite distributor_table_hashable in Hr by auto. cbn [rows] in Hr.
    apply list_elem_of_fmap in Hr as (name & -> & Hname). eauto.
  - intros (c & name & Hc & Hname & ->). exists c. split; [by apply list_elem_of_In|].
    apply list_elem_of_In. rewrite distributor_table_hashable by auto. cbn [rows].
    apply list_elem_of_fmap. eauto.
Qed.

Lemma names_have_hash (calls : list cell) :
  Forall name_or_missing calls → existsb no_hash calls = false.
Proof.
  induction 1 as [|c calls Hc _ IH]; [done|].
  simpl. rewrite IH. by destruct c as [[]|].
Qed.

(** The first country, in the combined table, that has no hash. *)
Lemma first_unhashable_app (l1 l2 : list cell) :
  pd.first_unhashable (l1 ++ l2)
  = match pd.first_unhashable l1 with
    | Some v => Some v
    | None => pd.first_unhashable l2
    end.
Proof.
  unfold pd.first_unhashable. rewrite omap_app.
  by destruct (omap _ l1).
Qed.

Lemma first_unhashable_same (c : cell) (n : nat) :
  no_hash c = false → pd.first_unhashable (replicate n c) = None.
Proof. intros Hc. induction n as [|n IH]; [done|]. by destruct c as [[]|]. Qed.

Lemma combined_table_country_column (calls : list cell) :
  calls ≠ [] →
  column (combined_table calls) "Country"
  = flat_map (λ c, replicate (length (rows (distributor_table c))) c) calls.
Proof.
  intros Hne. unfold column.
  rewrite combined_table_columns, combined_table_rows by done.
  rewrite <-flat_map_map.
  apply flat_map_same, Forall_forall. intros c _.
  rewrite map_map.
  assert (∀ l : list (list cell), Forall (λ r, r ∈ rows (distributor_table c)) l →
            map (λ r, pd.cell_at (combined_columns calls)
                        (widen (combined_columns calls) r) "Country") l
            = replicate (length l) c) as Hall.
  { induction 1 as [|r l Hr _ IH]; [done|].
    simpl. by rewrite IH, (widened_row_country calls c r). }
  apply Hall, Forall_forall. auto.
Qed.

Lemma first_unhashable_lookups (calls : list cell) :
  existsb no_hash calls = true →
  ∃ v, pd.first_unhashable
         (flat_map (λ c, replicate (length (rows (distributor_table c))) c) calls)
       = Some v
       ∧ type_name v ∈ ["list"; "dict"].
Proof.
  induction calls as [|c calls IH]; [done|].
  cbn [existsb]. rewrite flat_map_cons, first_unhashable_app.
  destruct (no_hash c) eqn:Hc.
  - intros _. destruct c as [[]|]; try done; eexists;
      (split; [reflexivity|]); rewrite !elem_of_cons; auto.
  - rewrite first_unhashable_same by done. apply IH.
Qed.

Section lookups_of_markets.
Context `{W : World}.

(** X6. Whatever the market query answers, every row of the combined
    distributor table carries a country of the market table that is neither
    ["Error"] nor ["Exception"] (a name, or whatever else the response holds
    under [ptTitle]: a missing value, a number, a list), and every such country
    of the market table has a row in the combined table. *)
Theorem combined_table_countries (product_term : string) :
  ∃ market_df distributors_df,
    suggest_markets product_term = Return market_df
    ∧ (df_list ← distributor_df_list market_df; distributors_df_of df_list)
      = Return distributors_df
    ∧ Forall (λ r, country_of distributors_df r ∈ column market_df "Country"
                   ∧ country_of distributors_df r ≠ Text "Error"
                   ∧ country_of distributors_df r ≠ Text "Exception")
             (rows distributors_df)
    ∧ ∀ country, country ∈ column market_df "Country" →
        country ≠ Text "Error" → country ≠ Text "Exception" →
        ∃ r, r ∈ rows distributors_df ∧ country_of distributors_df r = country.
Proof.
  destruct (market_pipeline product_term) as (market_df & Hrun & _ & Hpipe).
  exists market_df, (combined_table (lookups market_df)).
  destruct (combined_table_countries_of (lookups market_df)) as [Hrows Hall].
  split_and!; [done..| |].
  - eapply Forall_impl; [exact Hrows|]. intros r Hc. simpl in Hc.
    unfold lookups in Hc. apply list_elem_of_filter in Hc as [Hlook Hcol].
    unfold lookup_country in Hlook. rewrite !not_elem_of_cons in Hlook. tauto.
  - intros country Hcol H1 H2. apply Hall, list_elem_of_filter. split; [|done].
    unfold lookup_country. rewrite !not_elem_of_cons, elem_of_nil. tauto.
Qed.

(** X2. Whenever the market table names no country to look up, because the
    query failed, the response held no entry, or every row carries a sentinel,
    the combined distributor table is the column-less empty frame and the
    report, whatever the summary and the buyers, is the failure message
    [Report generation failed: 'Country']. *)
Theorem report_fails_without_lookup (product_term : string)
    (site_info : gmap string value) (buyer_df : DataFrame) :
  ∃ market_df distributors_df,
    suggest_markets product_term = Return market_df
    ∧ (df_list ← distributor_df_list market_df; distributors_df_of df_list)
      = Return distributors_df
    ∧ (lookups market_df = [] →
       distributors_df = mkDataFrame [] []
       ∧ create_report site_info market_df buyer_df distributors_df
         = Return ("Report generation failed: " +:+ String "039"%char "Country"
                   +:+ String "039"%char ""))
    ∧ match market_rows product_term with
      | Raise _ => lookups market_df = []
      | Return rs => rs = [] → lookups market_df = []
      end
    ∧ (Forall (λ c, c = Text "Error" ∨ c = Text "Exception") (column market_df "Country") →
       lookups market_df = []).
Proof.
  destruct (market_pipeline product_term) as (market_df & Hrun & _ & Hpipe).
  exists market_df, (combined_table (lookups market_df)). split_and!; [done..| | |].
  - intros ->. split; [done|].
    apply (create_report_without_country site_info market_df buyer_df pd.empty),
      not_elem_of_nil.
  - rewrite suggest_markets_cases in Hrun.
    destruct (market_rows product_term) as [rs|e]; [intros ->|]; by simplify_eq.
  - unfold lookups. induction 1 as [|c cs Hc _ IH]; [done|].
    rewrite filter_cons, decide_False; [done|].
    unfold lookup_country. rewrite !not_elem_of_cons. destruct Hc; tauto.
Qed.

(** X9. One country of the market table that is a list or a dict is enough
    to lose the whole report: its lookup is answered with the error row, which
    carries the country as it is, grouping the combined table by country then
    raises on it, and the composer returns that failure in place of the
    report. *)
Theorem report_fails_on_unhashable_country (product_term : string)
    (site_info : gmap string value) (buyer_df market_df distributors_df : DataFrame) :
  suggest_markets product_term = Return market_df →
  (df_list ← distributor_df_list market_df; distributors_df_of df_list)
  = Return distributors_df →
  existsb no_hash (lookups market_df) = true →
  ∃ kind,
    kind ∈ ["list"; "dict"]
    ∧ create_report site_info market_df buyer_df distributors_df
      = Return ("Report generation failed: unhashable type: "
                +:+ String "039"%char kind +:+ String "039"%char "").
Proof.
  intros Hrun Hpipe Hex.
  destruct (market_pipeline product_term) as (market_df' & Hrun' & _ & Hpipe').
  rewrite Hrun in Hrun'. injection Hrun' as <-.
  rewrite Hpipe in Hpipe'. injection Hpipe' as ->.
  assert (lookups market_df ≠ []) as Hne by (by destruct (lookups market_df)).
  destruct (first_unhashable_lookups _ Hex) as (v & Hfirst & Hkind).
  exists (type_name v). split; [done|].
  unfold create_report, dist_sections, pd.groupby, pd.getitem.
  rewrite combined_table_columns by done.
  rewrite bool_decide_eq_true_2
    by (unfold combined_columns; destruct (existsb _ _); rewrite !elem_of_cons; auto).
  rewrite bind_Return.
  rewrite <-(combined_table_columns (lookups market_df)) by done.
  fold (column (combined_table (lookups market_df)) "Country").
  rewrite combined_table_country_column, Hfirst by done.
  reflexivity.
Qed.

End lookups_of_markets.

(** ** The distributor listing, row by row *)

Lemma filter_split {A} (key : A → cell) (a : cell) (S : list cell) (l : list A) :
  a ∉ S →
  filter (λ r, key r ∈ a :: S) l
  ≡ₚ filter (λ r, key r = a) l ++ filter (λ r, key r ∈ S) l.
Proof.
  intros Ha. induction l as [|r l IH]; [done|].
  rewrite !filter_cons.
  destruct (decide (key r = a)) as [Heq|Hne].
  - rewrite decide_True by (rewrite Heq; apply elem_of_cons; auto).
    rewrite (decide_False (P := key r ∈ S)) by (by rewrite Heq).
    simpl. by rewrite IH.
  - destruct (decide (key r ∈ S)) as [Hin|Hout].
    + rewrite decide_True by (apply elem_of_cons; auto).
      rewrite IH. apply Permutation_middle.
    + rewrite decide_False by (rewrite elem_of_cons; tauto). done.
Qed.

Lemma groups_partition {A} (key : A → cell) (keys : list string) (l : list A) :
  NoDup keys →
  flat_map (λ k, filter (λ r, key r = Text k) l) keys
  ≡ₚ filter (λ r, key r ∈ (λ k, Text k) <$> keys) l.
Proof.
  induction 1 as [|k keys Hk _ IH]; simpl.
  - induction l as [|r l IHl]; [done|].
    rewrite filter_cons, decide_False by apply not_elem_of_nil. done.
  - rewrite filter_split, IH; [done|].
    intros (k' & Heq & Hin)%list_elem_of_fmap. by simplify_eq.
Qed.

Lemma filter_same {A} (P Q : A → Prop) `{∀ x, Decision (P x)} `{∀ x, Decision (Q x)}
    (l : list A) :
  (∀ x, x ∈ l → P x ↔ Q x) → filter P l = filter Q l.
Proof.
  induction l as [|x l IH]; intros Hpq; [done|].
  rewrite !filter_cons.
  destruct (decide (P x)) as [Hp|Hp].
  - rewrite decide_True by (apply Hpq; [apply elem_of_cons; auto|done]).
    f_equal. apply IH. intros y Hy. apply Hpq, elem_of_cons. auto.
  - rewrite decide_False by (rewrite <-Hpq; [done|apply elem_of_cons; auto]).
    apply IH. intros y Hy. apply Hpq, elem_of_cons. auto.
Qed.

Section listing_rows.
Context `{W : World}.

(** X4. In the distributor listing of a table with the columns ["Country"]
    and ["Distributor"], whose countries are names or missing, the bullets of
    all groups together are the distributor cells of the rows that have a
    country, each row listed once: no such row is lost or repeated, and a row
    without a country is left out. *)
Theorem dist_sections_lists_each_distributor_once (df : DataFrame) :
  "Country" ∈ columns df → "Distributor" ∈ columns df →
  Forall name_or_missing (column df "Country") →
  ∃ countries,
    dist_sections df = Return (join (LF +:+ LF) (map (render_group df) countries))
    ∧ flat_map (names_of df) countries
      ≡ₚ map (λ r, pd.cell_at (columns df) r "Distributor")
           (filter (λ r, has_text (country_of df r)) (rows df)).
Proof.
  intros HC HD Hkeys. eexists. split; [by apply dist_sections_groups|].
  set (keys := merge_sort String.le (pd.unique (pd.text_keys (column df "Country")))).
  assert (NoDup keys) as Hnd.
  { unfold keys. rewrite merge_sort_Permutation. apply NoDup_unique_from. }
  unfold names_of. rewrite flat_map_map. apply Permutation_map.
  rewrite (groups_partition (country_of df) keys (rows df) Hnd).
  erewrite filter_same; [reflexivity|].
  intros r Hr. split.
  - by intros (k & -> & _)%list_elem_of_fmap.
  - destruct (country_of df r) as [[| | | |s| |]|] eqn:Hs; try done. intros _.
    apply list_elem_of_fmap. exists s. split; [done|].
    unfold keys. rewrite merge_sort_Permutation, elem_of_unique, elem_of_text_keys.
    unfold column. apply list_elem_of_fmap. exists r. by rewrite <-Hs.
Qed.

Lemma group_heading_in_render_group (df : DataFrame) (country : string) :
  is_substring (group_heading country) (render_group df country).
Proof.
  unfold render_group, group_heading.
  eexists "", _. change ("" +:+ ?x) with x. by rewrite !app_assoc_r.
Qed.

Lemma bullet_in_render_group (df : DataFrame) (country name : string) :
  Text name ∈ names_of df country →
  is_substring ("- " +:+ name) (render_group df country).
Proof.
  intros Hname. unfold render_group.
  do 4 apply is_substring_app_r. rewrite <-join_concat. apply is_substring_join.
  apply list_elem_of_fmap. by exists (Text name).
Qed.

(** X3. When the market table names at least one country to look up, its
    countries to look up are names or missing, and both tables render, the
    report is the text of the template filled in: it shows every section
    header, and its distributor listing holds, for every country looked up by
    name, the heading of that country and a bullet for each of its
    distributors. *)
Theorem report_lists_looked_up_countries (product_term : string)
    (site_info : gmap string value) (buyer_df market_df distributors_df : DataFrame)
    (markets_md buyers_md : string) :
  suggest_markets product_term = Return market_df →
  (df_list ← distributor_df_list market_df; distributors_df_of df_list)
  = Return distributors_df →
  lookups market_df ≠ [] →
  Forall name_or_missing (lookups market_df) →
  to_markdown market_df = Return markets_md →
  to_markdown buyer_df = Return buyers_md →
  ∃ report dists,
    create_report site_info market_df buyer_df distributors_df = Return report
    ∧ report
      = report_text
          (format_value (default (VStr "N/A") (site_info !! "Page Title")))
          (format_value (default (VStr "N/A") (site_info !! "Meta Description")))
          (join_value ", " (default (VList []) (site_info !! "Product Headings")))
          markets_md buyers_md dists
    ∧ report
      = String.concat ""
          (report_template
             (format_value (default (VStr "N/A") (site_info !! "Page Title")))
             (format_value (default (VStr "N/A") (site_info !! "Meta Description")))
             (join_value ", " (default (VList []) (site_info !! "Product Headings")))
             markets_md buyers_md dists)
    ∧ Forall (λ h, is_substring h report) section_headers
    ∧ ∀ country, Text country ∈ lookups market_df →
        is_substring (group_heading country) dists
        ∧ Forall (λ name, is_substring ("- " +:+ name) dists)
                 (trusted_get (Text country) ["No trusted partners listed"]).
Proof.
  intros Hrun Hpipe Hcalls Hnames Hm Hb.
  destruct (market_pipeline product_term) as (market_df' & Hrun' & _ & Hpipe').
  rewrite Hrun in Hrun'. injection Hrun' as <-.
  rewrite Hpipe in Hpipe'. injection Hpipe' as ->.
  pose proof (names_have_hash _ Hnames) as Hhash.
  set (ddf := combined_table (lookups market_df)).
  assert (columns ddf = ["Distributor"; "Country"]) as Hcols.
  { unfold ddf. rewrite combined_table_columns by done.
    unfold combined_columns. by rewrite Hhash. }
  assert ("Country" ∈ columns ddf ∧ "Distributor" ∈ columns ddf) as [HC HD].
  { rewrite Hcols, !elem_of_cons. auto. }
  assert (Forall name_or_missing (column ddf "Country")) as Hkeys.
  { unfold column. apply Forall_map, Forall_forall.
    intros r (c & name & Hc & _ & ->)%elem_of_combined_rows; [|done].
    rewrite Hcols. simpl. rewrite Forall_forall in Hnames. auto. }
  pose proof (dist_sections_groups ddf HC HD Hkeys) as Hdists.
  eexists _, _. split_and!.
  - exact (create_report_filled site_info market_df buyer_df ddf _ markets_md buyers_md
             Hdists Hm Hb).
  - reflexivity.
  - by rewrite report_text_template.
  - apply report_text_headers.
  - intros country Hc.
    assert (∀ name, name ∈ trusted_get (Text country) ["No trusted partners listed"] →
              [Text name; Text country] ∈ rows ddf) as Hrows.
    { intros name Hname. apply elem_of_combined_rows; eauto. }
    assert (∀ name, name ∈ trusted_get (Text country) ["No trusted partners listed"] →
              Text name ∈ names_of ddf country) as Hnames'.
    { intros name Hname. unfold names_of. apply list_elem_of_fmap.
      exists [Text name; Text country]. rewrite Hcols. split; [done|].
      apply list_elem_of_filter. split; [done|]. by apply Hrows. }
    assert (render_group ddf country
            ∈ map (render_group ddf)
                (merge_sort String.le (pd.unique (pd.text_keys (column ddf "Country")))))
      as Hgroup.
    { apply list_elem_of_fmap. exists country. split; [done|].
      rewrite merge_sort_Permutation, elem_of_unique, elem_of_text_keys.
      destruct (trusted_get (Text country) ["No trusted partners listed"])
        as [|name names] eqn:Hget; [by apply trusted_get_nonempty in Hget|].
      unfold column. apply list_elem_of_fmap. exists [Text name; Text country].
      rewrite Hcols. split; [done|]. rewrite <-Hget in Hrows. apply Hrows.
      rewrite Hget. apply elem_of_cons. auto. }
    split.
    + eapply is_substring_trans; [apply group_heading_in_render_group|].
      by apply is_substring_join.
    + apply Forall_forall. intros name Hname.
      eapply is_substring_trans;
        [apply (bullet_in_render_group ddf country name), Hnames', Hname|].
      by apply is_substring_join.
Qed.

End listing_rows.

Section scraped.
Context `{W : World}.

(** X7. The report made of a scraped page.  When the assembly raises, the
    report is the failure message; when the distributor listing and the two
    tables render, it is the text of the template around the page's title text
    unchanged, or [No title found] for a page without title; the content of
    its meta description, or [No description found] when the tag or its
    [content] attribute is absent; and the first ten qualifying headings
    joined by a comma and a space: the [N/A] defaults are never shown for a
    scraped page. *)
Theorem report_of_scraped_page (url : string) (soup : Soup)
    (market_data buyers dists : DataFrame) :
  fetch_page url = Return soup →
  ∃ site_info,
    scrape_site url = Return site_info
    ∧ (∀ e, assembly_raises market_data buyers dists e →
         create_report site_info market_data buyers dists
         = Return ("Report generation failed: " +:+ str_exn e))
    ∧ ∀ listing markets_md buyers_md,
        dist_sections dists = Return listing →
        to_markdown market_data = Return markets_md →
        to_markdown buyers = Return buyers_md →
        create_report site_info market_data buyers dists
        = Return (report_text
                    (from_option tag_text "No title found" (soup_title soup))
                    (default "No description found"
                       (find_meta_description soup ≫= λ m, attrs m !! "content"))
                    (join ", "
                       (take 10 (filter (λ t, (5 < len t)%nat)
                                   (map get_text_strip (find_all_h1_h2_h3 soup)))))
                    markets_md buyers_md listing).
Proof.
  intros Hpage. rewrite scrape_site_cases, Hpage.
  eexists. split; [reflexivity|]. split; [apply create_report_failure|].
  intros listing markets_md buyers_md Hd Hm Hb.
  rewrite (create_report_filled _ _ _ _ listing markets_md buyers_md) by done.
  rewrite lookup_insert_eq.
  rewrite (lookup_insert_ne _ "Page Title" "Meta Description") by done.
  rewrite lookup_insert_eq.
  rewrite (lookup_insert_ne _ "Page Title" "Product Headings") by done.
  rewrite (lookup_insert_ne _ "Meta Description" "Product Headings") by done.
  rewrite lookup_singleton_eq.
  pose proof (map_filter_comm get_text_strip (λ t, (5 < len t)%nat)
                (find_all_h1_h2_h3 soup)) as Hcomm.
  simpl in Hcomm. simpl. rewrite Hcomm.
  destruct (soup_title soup), (find_meta_description soup); reflexivity.
Qed.

End scraped.

(** X8. For a text the encoder accepts, the payload of the download link is
    made of letters, digits, [+], [/] and padding only, four characters for
    every three bytes of the text begun, and it is what is read off the link
    up to the closing quote: no character of the report reaches the link
    unencoded. *)
Theorem download_link_payload_is_base64 `{W : World}
    (object_to_download download_filename link_text : string) :
  encode_error object_to_download = None →
  ∃ payload,
    download_link object_to_download download_filename link_text
    = Return (link_around payload download_filename link_text)
    ∧ link_payload (link_around payload download_filename link_text) = Some payload
    ∧ Forall RFC4648.base64_char (list_ascii_of_string payload)
    ∧ String.length payload
      = (4 * ((String.length object_to_download + 2) / 3))%nat.
Proof.
  intros Henc. exists (Base64.b64encode object_to_download).
  split_and!; [by apply download_link_encoded|apply link_payload_link_around
              |apply b64encode_shape..].
Qed.

(** * Concrete runs *)

(** Membership in a literal list, by computation. *)
Ltac by_computation := apply (bool_decide_unpack _); vm_compute; exact I.

(** The scenario of C1, run in the fixture world. *)
Example acme_scenario_page :
  render (W := acme_world) "https://acme.example" "" None
  = (page_head
     ++ workflow_page
          {[ "Page Title" := VStr "Acme Mobility";
             "Meta Description" := VStr "No description found";
             "Product Headings" :=
               VList ["Power Wheelchairs"; "Mobility Scooters"; "Patient Lifts"] ]}
          (mkDataFrame ["Country"; "Demand Score"]
             [[Text "Error";
               Text "401 Client Error: Unauthorized for url: https://comtradeapi.un.org/public/v1/preview/C/A/2010/2022/TOTAL/Mobility%20equipment?fmt=json"]])
          mock_buyers pd.empty
          failure_message
          (link_around "UmVwb3J0IGdlbmVyYXRpb24gZmFpbGVkOiAnQ291bnRyeSc="
             "export_report.md" "📅 Download Full Report")
     ++ page_foot,
     Return tt).
Proof. vm_compute. reflexivity. Qed.

(** The test vectors of RFC 4648, and a text whose encoding uses the two
    last characters of the standard alphabet. *)
Example base64_test_vectors :
  map Base64.b64encode ["f"; "fo"; "foo"; "foob"; "fooba"; "foobar"]
  = ["Zg=="; "Zm8="; "Zm9v"; "Zm9vYg=="; "Zm9vYmE="; "Zm9vYmFy"]
  ∧ Base64.b64encode (bytes [251; 255; 190]%N) = "+/++"
  ∧ RFC4648.decode "+/++" = Some (bytes [251; 255; 190]%N)
  ∧ RFC4648.decode "-_--" = None.
Proof. repeat split. Qed.

(** A text of five characters held in six bytes. *)
Example len_counts_code_points :
  len "Médic" = 5%nat ∧ String.length "Médic" = 6%nat
  ∧ strip (bytes [32; 194; 160]%N +:+ "Médic" +:+ bytes [9; 10]%N) = "Médic".
Proof. repeat split. Qed.

(** The whitespace [strip] removes, by its code points. *)
Example whitespace_code_points : whitespace = map utf8_char white_space.
Proof. reflexivity. Qed.

(** Bodies of another shape than an object with a list of objects under
    ["data"]: each is answered with the error row of the read that fails, but a
    text under ["data"] that is empty, like a missing ["data"], gives the empty
    table; and fields that are no text are kept as they are. *)
Example suggest_markets_on_other_shapes :
  suggest_markets (W := answer_world (JArr [])) "Mobility equipment"
  = Return (mkDataFrame ["Country"; "Demand Score"]
              [[Text "Error";
                Text (apostrophe +:+ "list" +:+ apostrophe
                      +:+ " object has no attribute " +:+ apostrophe +:+ "get"
                      +:+ apostrophe)]])
  ∧ suggest_markets (W := answer_world (JObj [("data", JNull)])) "Mobility equipment"
    = Return (mkDataFrame ["Country"; "Demand Score"]
                [[Text "Error";
                  Text (apostrophe +:+ "NoneType" +:+ apostrophe
                        +:+ " object is not subscriptable")]])
  ∧ suggest_markets (W := answer_world (JObj [("data", JArr [JInt 5])]))
      "Mobility equipment"
    = Return (mkDataFrame ["Country"; "Demand Score"]
                [[Text "Error";
                  Text (apostrophe +:+ "int" +:+ apostrophe
                        +:+ " object has no attribute " +:+ apostrophe +:+ "get"
                        +:+ apostrophe)]])
  ∧ suggest_markets (W := answer_world (JObj [("data", JStr "none")]))
      "Mobility equipment"
    = Return (mkDataFrame ["Country"; "Demand Score"]
                [[Text "Error";
                  Text (apostrophe +:+ "str" +:+ apostrophe
                        +:+ " object has no attribute " +:+ apostrophe +:+ "get"
                        +:+ apostrophe)]])
  ∧ suggest_markets (W := answer_world (JObj [("data", JStr "")])) "Mobility equipment"
    = Return (mkDataFrame [] [])
  ∧ suggest_markets (W := answer_world (JObj [("count", JInt 0)])) "Mobility equipment"
    = Return (mkDataFrame [] [])
  ∧ suggest_markets
      (W := answer_world
              (JObj [("data", JArr [JObj [("ptTitle", JNull); ("rgDesc", JInt 2)];
                                    JObj [("ptCode", JInt 842)]])]))
      "Mobility equipment"
    = Return (mkDataFrame ["Country"; "Demand Score"]
                [[Val JNull; Val (JInt 2)]; [Text "N/A"; Text "N/A"]]).
Proof. repeat split. Qed.

Lemma scenario_report_is_failure_message_witness :
  "https://acme.example" ≠ ""
  ∧ fetch_page (W := acme_world) "https://acme.example" = Return acme_soup
  ∧ tag_text <$> soup_title acme_soup = Some "Acme Mobility"
  ∧ find_meta_description acme_soup = None
  ∧ filter (λ t, (5 < len t)%nat) (map get_text_strip (find_all_h1_h2_h3 acme_soup))
    = ["Power Wheelchairs"; "Mobility Scooters"; "Patient Lifts"]
  ∧ query_market (W := acme_world) "Mobility equipment"
    = Raise (HTTPError "401 Client Error: Unauthorized for url: https://comtradeapi.un.org/public/v1/preview/C/A/2010/2022/TOTAL/Mobility%20equipment?fmt=json")
  ∧ ∃ dl_link,
      download_link (W := acme_world) failure_message "export_report.md"
        "📅 Download Full Report" = Return dl_link
      ∧ render (W := acme_world) "https://acme.example" "" None
        = (page_head
           ++ workflow_page
                {[ "Page Title" := VStr "Acme Mobility";
                   "Meta Description" := VStr "No description found";
                   "Product Headings" :=
                     VList ["Power Wheelchairs"; "Mobility Scooters"; "Patient Lifts"] ]}
                (mkDataFrame ["Country"; "Demand Score"]
                   [[Text "Error";
                     Text (str_exn (HTTPError "401 Client Error: Unauthorized for url: https://comtradeapi.un.org/public/v1/preview/C/A/2010/2022/TOTAL/Mobility%20equipment?fmt=json"))]])
                mock_buyers pd.empty failure_message dl_link
           ++ page_foot,
           Return tt).
Proof.
  split; [done|]. split; [reflexivity|]. split; [reflexivity|].
  split; [reflexivity|]. split; [reflexivity|]. split; [reflexivity|].
  apply (scenario_report_is_failure_message (W := acme_world)
           "https://acme.example" acme_soup);
    [done|reflexivity..].
Defined.

(** C2, refuted as stated.  On the empty inputs the page script itself builds
    ([{}] and [pd.DataFrame()]) the composer returns the failure message, which
    shows none of the section headers; and on a distributor table with its
    columns and no row the brand title and description bodies are not empty
    but read [N/A]. *)
Lemma create_report_on_empty_inputs :
  create_report (W := acme_world) ∅ pd.empty pd.empty pd.empty = Return failure_message
  ∧ Forall (λ h, contains h failure_message = false) section_headers
  ∧ ∃ report,
      create_report (W := acme_world) ∅ pd.empty pd.empty no_distributors = Return report
      ∧ contains ("**Brand Title:** N/A" +:+ nl) report = true
      ∧ contains ("**Meta Description:** N/A" +:+ nl) report = true.
Proof.
  split; [reflexivity|]. split.
  - by_computation.
  - eexists. split; [vm_compute; reflexivity|]. split; vm_compute; reflexivity.
Qed.

Lemma create_report_never_raises_witness :
  to_markdown (World := acme_world) mock_buyers = Return (plain_table mock_buyers)
  ∧ "Country" ∈ columns no_distributors
  ∧ rows no_distributors = []
  ∧ create_report (W := acme_world) ∅ mock_buyers mock_buyers no_distributors
    = Return (report_text "N/A" "N/A" "" (plain_table mock_buyers)
                (plain_table mock_buyers) "")
  ∧ Forall (λ h, is_substring h
                   (report_text "N/A" "N/A" "" (plain_table mock_buyers)
                      (plain_table mock_buyers) ""))
           section_headers.
Proof.
  split; [reflexivity|]. split; [by_computation|]. split; [reflexivity|].
  apply (proj2 (create_report_never_raises (W := acme_world)));
    [reflexivity|reflexivity|by_computation|reflexivity].
Defined.

(** C3, refuted as stated.  The combined table the page script builds for
    the markets USA and Mexico lists USA first, but the listing made of it
    starts with the group of Mexico. *)
Lemma dist_sections_not_in_order_of_appearance :
  (df_list ← distributor_df_list
               (mkDataFrame ["Country"; "Demand Score"]
                  [[Text "USA"; Text "Import"]; [Text "Mexico"; Text "Import"]]);
   distributors_df_of df_list) = Return usa_then_mexico
  ∧ pd.unique (pd.text_keys (column usa_then_mexico "Country")) = ["USA"; "Mexico"]
  ∧ dist_sections (W := acme_world) usa_then_mexico
    = Return (join (LF +:+ LF)
                (map (render_group (W := acme_world) usa_then_mexico) ["Mexico"; "USA"]))
  ∧ dist_sections (W := acme_world) usa_then_mexico
    ≠ Return (join (LF +:+ LF)
                (map (render_group (W := acme_world) usa_then_mexico) ["USA"; "Mexico"])).
Proof.
  split; [vm_compute; reflexivity|].
  split; [reflexivity|]. split; [vm_compute; reflexivity|].
  vm_compute. discriminate.
Qed.

Lemma dist_sections_by_country_witness :
  "Country" ∈ columns usa_then_mexico
  ∧ "Distributor" ∈ columns usa_then_mexico
  ∧ Forall name_or_missing (column usa_then_mexico "Country")
  ∧ ∃ countries,
      dist_sections (W := acme_world) usa_then_mexico
      = Return (join (LF +:+ LF)
                  (map (render_group (W := acme_world) usa_then_mexico) countries))
      ∧ StronglySorted String.le countries
      ∧ NoDup countries
      ∧ ∀ c, c ∈ countries ↔ Text c ∈ column usa_then_mexico "Country".
Proof.
  split; [by_computation|]. split; [by_computation|]. split; [by_computation|].
  apply (dist_sections_by_country (W := acme_world)); by_computation.
Defined.

(** C4, refuted as stated.  A market table naming USA on two rows has one
    distinct country, and the lookup is made twice. *)
Lemma repeated_country_is_looked_up_twice :
  suggest_markets (W := market_world [entry "USA" "Import"; entry "USA" "Export"])
    "Mobility equipment"
  = Return (mkDataFrame ["Country"; "Demand Score"]
              [[Text "USA"; Text "Import"]; [Text "USA"; Text "Export"]])
  ∧ pd.unique (pd.text_keys [Text "USA"; Text "USA"]) = ["USA"]
  ∧ distributor_df_list
      (mkDataFrame ["Country"; "Demand Score"]
         [[Text "USA"; Text "Import"]; [Text "USA"; Text "Export"]])
    = Return [distributor_table (Text "USA"); distributor_table (Text "USA")].
Proof. split; [vm_compute; reflexivity|]. split; vm_compute; reflexivity. Qed.

(** C5, refuted as stated.  A response without entries is no failure, and
    the table made of it has no column. *)
Lemma suggest_markets_no_entries_no_columns :
  query_market (W := market_world []) "Mobility equipment"
  = Return (JObj [("data", JArr [])])
  ∧ suggest_markets (W := market_world []) "Mobility equipment"
    = Return (mkDataFrame [] []).
Proof. split; vm_compute; reflexivity. Qed.

(** C6, refuted as stated.  A site answering 304, a status outside 2xx, is
    scraped as a success: the record carries no ["error"] key but the three
    keys of a summary (of the empty body). *)
Lemma scrape_site_not_modified_is_success :
  (r ← requests_get (World := not_modified_world) "https://acme.example" [];
   mret (status_code r)) = Return 304
  ∧ ∃ site_info,
      scrape_site (W := not_modified_world) "https://acme.example" = Return site_info
      ∧ site_info !! "error" = None
      ∧ site_info !! "Page Title" = Some (VStr "No title found").
Proof.
  split; [reflexivity|]. eexists. split; [vm_compute; reflexivity|].
  split; vm_compute; reflexivity.
Qed.

Lemma scrape_site_failure_is_tagged_witness :
  fetch_failure (W := not_found_world) "https://acme.example/gone"
  ∧ ∃ site_info,
      scrape_site (W := not_found_world) "https://acme.example/gone" = Return site_info
      ∧ ∃ msg, site_info = {[ "error" := VStr ("Unable to scrape site: " +:+ msg) ]}.
Proof.
  assert (fetch_failure (W := not_found_world) "https://acme.example/gone") as Hf.
  { eapply error_status; [reflexivity|]. simpl. lia. }
  split; [exact Hf|].
  destruct (scrape_site_failure_is_tagged (W := not_found_world)
              "https://acme.example/gone") as (site_info & Hrun & Htag & _).
  exists site_info. split; [exact Hrun|]. exact (Htag Hf).
Defined.

(** C7, refuted as stated.  A heading with markup of its own is returned as
    its fragments joined without the spaces between them, not as its trimmed
    text, and it is this joined text whose length decides: of the two
    headings of the page, both longer than five characters once trimmed, the
    first is returned without its space and the second is not returned. *)
Lemma scrape_site_joins_nested_fragments :
  fetch_page (W := nested_world) "https://acme.example" = Return nested_soup
  ∧ map trimmed_text (find_all_h1_h2_h3 nested_soup) = ["Power Wheelchairs"; "A to Z"]
  ∧ Forall (λ t, (5 < len t)%nat) (map trimmed_text (find_all_h1_h2_h3 nested_soup))
  ∧ ∃ site_info,
      scrape_site (W := nested_world) "https://acme.example" = Return site_info
      ∧ site_info !! "Product Headings" = Some (VList ["PowerWheelchairs"]).
Proof.
  split; [reflexivity|]. split; [reflexivity|]. split; [by_computation|].
  eexists. split; [vm_compute; reflexivity|]. vm_compute. reflexivity.
Qed.

Lemma scrape_site_headings_witness :
  fetch_page (W := acme_world) "https://acme.example" = Return acme_soup
  ∧ ∃ site_info headings,
      scrape_site (W := acme_world) "https://acme.example" = Return site_info
      ∧ site_info !! "Product Headings" = Some (VList headings)
      ∧ headings
        = take 10
            (filter (λ t, (5 < len t)%nat)
               (map (λ item, join "" (filter (λ s, s ≠ "") (map strip (tag_strings item))))
                    (find_all_h1_h2_h3 acme_soup)))
      ∧ (length headings ≤ 10)%nat
      ∧ Forall (λ h, ∀ cps, Forall code_point cps → h = utf8 cps → (5 < length cps)%nat)
               headings
      ∧ ∀ cps, Forall code_point cps →
          len (utf8 cps) = length cps ∧ strip (utf8 cps) = utf8 (trim cps).
Proof.
  split; [reflexivity|]. apply (scrape_site_headings (W := acme_world)). reflexivity.
Defined.

(** ** Concrete runs of the further properties *)

Lemma dist_sections_lists_each_distributor_once_witness :
  "Country" ∈ columns usa_then_mexico
  ∧ "Distributor" ∈ columns usa_then_mexico
  ∧ Forall name_or_missing (column usa_then_mexico "Country")
  ∧ ∃ countries,
      dist_sections (W := acme_world) usa_then_mexico
      = Return (join (LF +:+ LF)
                  (map (render_group (W := acme_world) usa_then_mexico) countries))
      ∧ flat_map (names_of usa_then_mexico) countries
        ≡ₚ map (λ r, pd.cell_at (columns usa_then_mexico) r "Distributor")
             (filter (λ r, has_text (country_of usa_then_mexico r))
                (rows usa_then_mexico)).
Proof.
  split; [by_computation|]. split; [by_computation|]. split; [by_computation|].
  apply (dist_sections_lists_each_distributor_once (W := acme_world)); by_computation.
Defined.

Lemma report_lists_looked_up_countries_witness :
  suggest_markets (W := two_markets_world) "Mobility equipment" = Return two_markets
  ∧ (df_list ← distributor_df_list two_markets; distributors_df_of df_list)
    = Return usa_then_mexico
  ∧ lookups two_markets ≠ []
  ∧ Forall name_or_missing (lookups two_markets)
  ∧ to_markdown (World := two_markets_world) two_markets
    = Return (plain_table two_markets)
  ∧ to_markdown (World := two_markets_world) mock_buyers
    = Return (plain_table mock_buyers)
  ∧ ∃ report dists,
      create_report (W := two_markets_world) ∅ two_markets mock_buyers usa_then_mexico
      = Return report
      ∧ report
        = report_text
            (format_value (W := two_markets_world)
               (default (VStr "N/A") ((∅ : gmap string value) !! "Page Title")))
            (format_value (W := two_markets_world)
               (default (VStr "N/A") ((∅ : gmap string value) !! "Meta Description")))
            (join_value ", " (default (VList []) ((∅ : gmap string value) !! "Product Headings")))
            (plain_table two_markets) (plain_table mock_buyers) dists
      ∧ report
        = String.concat ""
            (report_template
               (format_value (W := two_markets_world)
                  (default (VStr "N/A") ((∅ : gmap string value) !! "Page Title")))
               (format_value (W := two_markets_world)
                  (default (VStr "N/A") ((∅ : gmap string value) !! "Meta Description")))
               (join_value ", " (default (VList []) ((∅ : gmap string value) !! "Product Headings")))
               (plain_table two_markets) (plain_table mock_buyers) dists)
      ∧ Forall (λ h, is_substring h report) section_headers
      ∧ ∀ country, Text country ∈ lookups two_markets →
          is_substring (group_heading country) dists
          ∧ Forall (λ name, is_substring ("- " +:+ name) dists)
                   (trusted_get (Text country) ["No trusted partners listed"]).
Proof.
  split; [vm_compute; reflexivity|]. split; [vm_compute; reflexivity|].
  split; [by_computation|]. split; [by_computation|].
  split; [reflexivity|]. split; [reflexivity|].
  apply (report_lists_looked_up_countries (W := two_markets_world) "Mobility equipment");
    [vm_compute; reflexivity|vm_compute; reflexivity|by_computation|by_computation
    |reflexivity|reflexivity].
Defined.

Lemma report_of_scraped_page_witness :
  fetch_page (W := acme_world) "https://acme.example" = Return acme_soup
  ∧ ∃ site_info,
      scrape_site (W := acme_world) "https://acme.example" = Return site_info
      ∧ create_report (W := acme_world) site_info two_markets mock_buyers pd.empty
        = Return failure_message
      ∧ create_report (W := acme_world) site_info two_markets mock_buyers usa_then_mexico
        = Return (report_text "Acme Mobility" "No description found"
                    "Power Wheelchairs, Mobility Scooters, Patient Lifts"
                    (plain_table two_markets) (plain_table mock_buyers)
                    (join (LF +:+ LF)
                       (map (render_group (W := acme_world) usa_then_mexico)
                            ["Mexico"; "USA"]))).
Proof.
  split; [reflexivity|].
  destruct (report_of_scraped_page (W := acme_world) "https://acme.example" acme_soup
              two_markets mock_buyers pd.empty eq_refl) as (site_info & Hrun & Hfail & _).
  destruct (report_of_scraped_page (W := acme_world) "https://acme.example" acme_soup
              two_markets mock_buyers usa_then_mexico eq_refl) as (site_info' & Hrun' & _ & Hfill).
  rewrite Hrun in Hrun'. injection Hrun' as <-.
  exists site_info. split; [exact Hrun|]. split.
  - apply (Hfail (KeyError "Country")). by apply listing_raises.
  - apply Hfill; [vm_compute; reflexivity|reflexivity|reflexivity].
Defined.

Lemma download_link_payload_is_base64_witness :
  encode_error (World := acme_world) "Export report" = None
  ∧ ∃ payload,
      download_link (W := acme_world) "Export report" "export_report.md" "Download"
      = Return (link_around payload "export_report.md" "Download")
      ∧ link_payload (link_around payload "export_report.md" "Download") = Some payload
      ∧ Forall RFC4648.base64_char (list_ascii_of_string payload)
      ∧ String.length payload = (4 * ((String.length "Export report" + 2) / 3))%nat.
Proof.
  split; [reflexivity|].
  apply (download_link_payload_is_base64 (W := acme_world)). reflexivity.
Defined.

(** A response whose second entry names its partner by a list of codes: the
    lookup of that entry fails, and with it the whole report. *)
Lemma report_fails_on_unhashable_country_witness :
  suggest_markets (W := listed_partner_world) "Mobility equipment"
  = Return (mkDataFrame ["Country"; "Demand Score"]
              [[Text "USA"; Text "Import"];
               [Val (JArr [JInt 484; JInt 608]); Val JNull]])
  ∧ (df_list ← distributor_df_list
                 (mkDataFrame ["Country"; "Demand Score"]
                    [[Text "USA"; Text "Import"];
                     [Val (JArr [JInt 484; JInt 608]); Val JNull]]);
     distributors_df_of df_list)
    = Return (mkDataFrame ["Distributor"; "Country"; "Details"]
                [[Text "MedEquip USA"; Text "USA"; NaN];
                 [Text "Trusted Medical Supplies"; Text "USA"; NaN];
                 [Text "Error"; Val (JArr [JInt 484; JInt 608]);
                  Text ("unhashable type: " +:+ apostrophe +:+ "list" +:+ apostrophe)]])
  ∧ existsb no_hash
      (lookups (mkDataFrame ["Country"; "Demand Score"]
                  [[Text "USA"; Text "Import"];
                   [Val (JArr [JInt 484; JInt 608]); Val JNull]])) = true
  ∧ ∃ kind,
      kind ∈ ["list"; "dict"]
      ∧ create_report (W := listed_partner_world) ∅
          (mkDataFrame ["Country"; "Demand Score"]
             [[Text "USA"; Text "Import"];
              [Val (JArr [JInt 484; JInt 608]); Val JNull]])
          mock_buyers
          (mkDataFrame ["Distributor"; "Country"; "Details"]
             [[Text "MedEquip USA"; Text "USA"; NaN];
              [Text "Trusted Medical Supplies"; Text "USA"; NaN];
              [Text "Error"; Val (JArr [JInt 484; JInt 608]);
               Text ("unhashable type: " +:+ apostrophe +:+ "list" +:+ apostrophe)]])
        = Return ("Report generation failed: unhashable type: "
                  +:+ String "039"%char kind +:+ String "039"%char "").
Proof.
  split; [vm_compute; reflexivity|]. split; [vm_compute; reflexivity|].
  split; [vm_compute; reflexivity|].
  apply (report_fails_on_unhashable_country (W := listed_partner_world)
           "Mobility equipment");
    [vm_compute; reflexivity|vm_compute; reflexivity|vm_compute; reflexivity].
Defined.
